(** * last30days-skill: Hacker News search client and terminal progress display

    A shallow embedding of [scripts/lib/hn_search.py] and of the [Spinner]
    class of [scripts/lib/ui.py], with the properties their specification
    states about them.

    Layout:
    - [Py]: the fragment of the Python runtime the two modules rely on
      (JSON-like values, truthiness, [dict.get], [str()] and [repr()],
      slicing, exceptions as an error monad);
    - [Clock]: what the modules ask of [datetime] ([strptime] for the
      format [%Y-%m-%d], and the platform's local-time conversions);
    - [HN]: [search_hn], [parse_hn_response] and their helpers;
    - [UI]: the [Spinner] state machine and its writes to the error stream.

    Conventions.  Python [int] is [Z]; a Python [str] is a [string] whose
    characters stand for code points below 256; a [dict] is an association
    list in insertion order whose keys are pairwise distinct (lookups return
    the first binding).  JSON numbers are integers: floats are outside the
    model, except for the literal [0.7] of the [relevance] field, kept as the
    rational [7/10]. *)

From Stdlib Require Import ZArith List String Ascii Bool Lia DecimalString QArith.
From Stdlib Require DecimalNat DecimalFacts.
Import ListNotations.

Set Warnings "-register-all".

Open Scope list_scope.
Open Scope Z_scope.
Open Scope string_scope.

(* ================================================================== *)
(** ** Python runtime fragment *)
(* ================================================================== *)

Module Py.

(** Exception objects that reach the model from outside (raised by the HTTP
    helper): the class name [type(e).__name__], the text [str(e)], and the
    two class tests that [search_hn] performs on them. *)
Record foreign_exception : Type := mk_foreign {
  exc_type_name : string;
  exc_str : string;
  exc_is_HTTPError : bool;   (* isinstance(e, http.HTTPError) *)
  exc_is_Exception : bool    (* isinstance(e, Exception) *)
}.

(** The exception classes the modelled code can meet. *)
Inductive exn : Type :=
| AttributeError
| TypeError
| KeyError
| ValueError
| OSError
| OverflowError
| Foreign (e : foreign_exception).

(** A computation either returns or raises. *)
Inductive result (A : Type) : Type :=
| Ok (a : A)
| Raise (e : exn).

Arguments Ok {A} a.
Arguments Raise {A} e.

Definition bind {A B : Type} (m : result A) (k : A -> result B) : result B :=
  match m with
  | Ok a => k a
  | Raise e => Raise e
  end.

Declare Scope py_scope.
Delimit Scope py_scope with py.
Notation "x <- m ;; k" := (bind m (fun x => k))
  (at level 61, m at next level, right associativity) : py_scope.
Open Scope py_scope.

Definition fmap {A B : Type} (f : A -> B) (m : result A) : result B :=
  match m with
  | Ok a => Ok (f a)
  | Raise e => Raise e
  end.

Fixpoint mapM {A B : Type} (f : A -> result B) (l : list A) : result (list B) :=
  match l with
  | [] => Ok []
  | a :: l' => b <- f a ;; bs <- mapM f l' ;; Ok (b :: bs)
  end.

(** Values as [json] decoding produces them. *)
Inductive value : Type :=
| VNone
| VBool (b : bool)
| VInt (n : Z)
| VStr (s : string)
| VList (l : list value)
| VDict (d : list (string * value)).

Definition dict : Type := list (string * value).

(** [bool(v)] *)
Definition truthy (v : value) : bool :=
  match v with
  | VNone => false
  | VBool b => b
  | VInt n => negb (n =? 0)%Z
  | VStr s => negb (s =? "")%string
  | VList l => match l with [] => false | _ => true end
  | VDict d => match d with [] => false | _ => true end
  end.

(** [a or b], for operands whose evaluation has no effect *)
Definition py_or (a b : value) : value := if truthy a then a else b.

(** Lookup in an association list: the first binding of [k]. *)
Fixpoint lookup {A : Type} (k : string) (d : list (string * A)) : option A :=
  match d with
  | [] => None
  | (k', v) :: d' => if (k =? k')%string then Some v else lookup k d'
  end.

(** [k in d] for a dict [d] *)
Definition has_key {A : Type} (k : string) (d : list (string * A)) : bool :=
  match lookup k d with Some _ => true | None => false end.

(** [d.get(k, default)] for a dict [d] *)
Definition dict_get (d : dict) (k : string) (default : value) : value :=
  match lookup k d with Some v => v | None => default end.

(** [v.get(k, default)] for an arbitrary object: only dicts have the
    method. *)
Definition py_get (v : value) (k : string) (default : value) : result value :=
  match v with
  | VDict d => Ok (dict_get d k default)
  | _ => Raise AttributeError
  end.

(** Iteration, as [enumerate(v)] and [for] perform it: a list yields its
    elements, a string its characters, a dict its keys; the rest is not
    iterable. *)
Definition py_iter (v : value) : result (list value) :=
  match v with
  | VList l => Ok l
  | VStr s => Ok (map (fun c => VStr (String c "")) (list_ascii_of_string s))
  | VDict d => Ok (map (fun kv => VStr (fst kv)) d)
  | VNone | VBool _ | VInt _ => Raise TypeError
  end.

(** [enumerate(l)] *)
Fixpoint enumerate_from {A : Type} (i : nat) (l : list A) : list (nat * A) :=
  match l with
  | [] => []
  | a :: l' => (i, a) :: enumerate_from (S i) l'
  end.

Definition enumerate {A : Type} (l : list A) : list (nat * A) :=
  enumerate_from 0 l.

(** Decimal text of integers: [str(n)]. *)
Definition str_of_Z (n : Z) : string := NilZero.string_of_int (Z.to_int n).
Definition str_of_nat (n : nat) : string := NilZero.string_of_uint (Nat.to_uint n).

(** [s[:n]] on strings *)
Fixpoint str_take (n : nat) (s : string) : string :=
  match n, s with
  | S n', String c s' => String c (str_take n' s')
  | _, _ => ""
  end.

(** *** [repr] of a string

    The delimiter is the double quote when the text holds a single quote and
    no double quote, the single quote otherwise; the backslash and the
    delimiter are escaped, tab, newline and carriage return have their short
    escapes, and the other non-printable code points are written [\xhh]. *)

Definition hex_lower (n : N) : ascii :=
  ascii_of_N (if (n <? 10)%N then 48 + n else 87 + n)%N.

Definition hex_upper (n : N) : ascii :=
  ascii_of_N (if (n <? 10)%N then 48 + n else 55 + n)%N.

Definition printable (c : ascii) : bool :=
  let n := N_of_ascii c in
  ((32 <=? n) && (n <? 127) || (161 <=? n) && negb (n =? 173))%N.

Fixpoint str_mem (c : ascii) (s : string) : bool :=
  match s with
  | "" => false
  | String c' s' => Ascii.eqb c c' || str_mem c s'
  end.

Definition repr_char (quote : ascii) (c : ascii) : string :=
  let n := N_of_ascii c in
  if Ascii.eqb c quote || Ascii.eqb c "\"%char then String "\"%char (String c "")
  else if (n =? 9)%N then "\t"
  else if (n =? 10)%N then "\n"
  else if (n =? 13)%N then "\r"
  else if printable c then String c ""
  else String "\"%char (String "x"%char
         (String (hex_lower (n / 16)) (String (hex_lower (n mod 16)) ""))).

Fixpoint repr_chars (quote : ascii) (s : string) : string :=
  match s with
  | "" => ""
  | String c s' => repr_char quote c ++ repr_chars quote s'
  end.

Definition dquote : ascii := ascii_of_N 34.

Definition repr_str (s : string) : string :=
  let quote :=
    if str_mem "'"%char s && negb (str_mem dquote s)
    then dquote else "'"%char in
  String quote (repr_chars quote s ++ String quote "").

(** [repr(v)] *)
Fixpoint py_repr (v : value) : string :=
  match v with
  | VNone => "None"
  | VBool true => "True"
  | VBool false => "False"
  | VInt n => str_of_Z n
  | VStr s => repr_str s
  | VList l => "[" ++ String.concat ", " (map py_repr l) ++ "]"
  | VDict d =>
      "{" ++ String.concat ", "
               (map (fun kv => repr_str (fst kv) ++ ": " ++ py_repr (snd kv)) d)
          ++ "}"
  end.

(** [str(v)], which is also what an f-string field [{v}] produces *)
Definition py_str (v : value) : string :=
  match v with
  | VStr s => s
  | _ => py_repr v
  end.

(** [v[:n]]: strings and lists are sliced; [None] and numbers are not
    subscriptable; a dict is asked for the key [slice(None, n)], which it
    does not hold ([KeyError]; before Python 3.12 the slice is unhashable
    and the exception is a [TypeError]). *)
Definition py_slice_to (n : nat) (v : value) : result value :=
  match v with
  | VStr s => Ok (VStr (str_take n s))
  | VList l => Ok (VList (firstn n l))
  | VDict _ => Raise KeyError
  | VNone | VBool _ | VInt _ => Raise TypeError
  end.

End Py.

(* ================================================================== *)
(** ** Dates: [datetime.strptime], [fromtimestamp], [timestamp] *)
(* ================================================================== *)

Module Clock.
Import Py.

(** *** The regular expression of [%Y-%m-%d]

    [strptime] compiles the format to
    [(?P<Y>\d\d\d\d)-(?P<m>1[0-2]|0[1-9]|[1-9])-(?P<d>3[0-1]|[1-2]\d|0[1-9]|[1-9]| [1-9])]
    and matches it at the start of the text.  A pattern is modelled by the
    list of ways it can match a prefix, as (matched text, remaining text), in
    the order a backtracking matcher tries them. *)

Definition pattern : Type := string -> list (string * string).

Definition char_in (lo hi : ascii) (c : ascii) : bool :=
  ((N_of_ascii lo <=? N_of_ascii c) && (N_of_ascii c <=? N_of_ascii hi))%N.

(** one character of the class [lo-hi] *)
Definition cls (lo hi : ascii) : pattern := fun s =>
  match s with
  | String c s' => if char_in lo hi c then [(String c "", s')] else []
  | "" => []
  end.

Definition chr (c : ascii) : pattern := cls c c.

(** [\d].  Among the code points below 256, which are those of the texts
    of this model, the decimal digits are [0] to [9]; the digits of other
    scripts, which [\d] matches as well, are beyond these texts. *)
Definition digit : pattern := cls "0" "9".

(** concatenation [pq] *)
Definition cat (p q : pattern) : pattern := fun s =>
  flat_map (fun a => map (fun b => (fst a ++ fst b, snd b)) (q (snd a))) (p s).

(** alternation [p|q] *)
Definition alt (p q : pattern) : pattern := fun s => (p s ++ q s)%list.

Definition re_Y : pattern := cat digit (cat digit (cat digit digit)).

Definition re_m : pattern :=
  alt (cat (chr "1") (cls "0" "2"))
 (alt (cat (chr "0") (cls "1" "9"))
      (cls "1" "9")).

Definition re_d : pattern :=
  alt (cat (chr "3") (cls "0" "1"))
 (alt (cat (cls "1" "2") digit)
 (alt (cat (chr "0") (cls "1" "9"))
 (alt (cls "1" "9")
      (cat (chr " ") (cls "1" "9"))))).

(** The groups of the first match of the whole pattern, with the text left
    after it ([found.end()] is where that text starts). *)
Definition match_ymd (s : string) : option (string * string * string * string) :=
  hd_error
    (flat_map (fun y =>
     flat_map (fun dash1 =>
     flat_map (fun m =>
     flat_map (fun dash2 =>
          map (fun d => (fst y, fst m, fst d, snd d)) (re_d (snd dash2)))
       (chr "-" (snd m)))
       (re_m (snd dash1)))
       (chr "-" (snd y)))
       (re_Y s)).

(** [int(s)] for a text of decimal digits, surrounding blanks ignored *)
Definition int_of_digits (s : string) : Z :=
  fold_left (fun acc c =>
               if char_in "0" "9" c
               then 10 * acc + Z.of_N (N_of_ascii c - 48)
               else acc)
            (list_ascii_of_string s) 0.

(** *** The proleptic Gregorian calendar of [datetime.date] *)

Definition is_leap (y : Z) : bool :=
  (y mod 4 =? 0)%Z && (negb (y mod 100 =? 0)%Z || (y mod 400 =? 0)%Z).

Definition days_in_month (y m : Z) : Z :=
  if (m =? 2)%Z then (if is_leap y then 29 else 28)
  else if ((m =? 4) || (m =? 6) || (m =? 9) || (m =? 11))%Z then 30
  else 31.

Definition MINYEAR : Z := 1.
Definition MAXYEAR : Z := 9999.

(** [datetime(y, m, d)] is accepted *)
Definition valid_date (y m d : Z) : bool :=
  ((MINYEAR <=? y) && (y <=? MAXYEAR) && (1 <=? m) && (m <=? 12)
   && (1 <=? d) && (d <=? days_in_month y m))%Z.

(** [datetime.strptime(s, "%Y-%m-%d")], as the year, month and day of the
    resulting datetime: [ValueError] when the text does not match the
    format, when unconverted text remains after the match, and when the
    fields are not a date of the calendar. *)
Definition strptime_ymd (s : string) : result (Z * Z * Z) :=
  match match_ymd s with
  | None => Raise ValueError
  | Some (y, m, d, rest) =>
      if negb (rest =? "")%string then Raise ValueError
      else
        let year := int_of_digits y in
        let month := int_of_digits m in
        let day := int_of_digits d in
        if valid_date year month day then Ok (year, month, day)
        else Raise ValueError
  end.

(** *** The platform's local time

    What [datetime.fromtimestamp] and [datetime.timestamp] add to the
    calendar is the local time zone and the range of the C library, which
    differ between machines: they are the parameter of the model.  The
    documented failures are [ValueError] (year outside 1..9999), [OSError]
    ([localtime] fails) and [OverflowError] (outside [time_t]). *)

Inductive time_error : Type := TimeValueError | TimeOSError | TimeOverflowError.

Definition exn_of_time_error (e : time_error) : exn :=
  match e with
  | TimeValueError => ValueError
  | TimeOSError => OSError
  | TimeOverflowError => OverflowError
  end.

Definition lift_time {A : Type} (r : A + time_error) : result A :=
  match r with
  | inl a => Ok a
  | inr e => Raise (exn_of_time_error e)
  end.

Record platform : Type := mk_platform {
  (** [datetime.fromtimestamp(n).strftime("%Y-%m-%d")] for an integer [n] *)
  local_date_of_timestamp : Z -> string + time_error;
  (** [int(datetime(y, m, d).timestamp())] for a date of the calendar *)
  timestamp_of_local_date : Z -> Z -> Z -> Z + time_error
}.

(** A reference platform: time zone UTC, 64-bit [time_t], [tm_year] a 32-bit
    integer, the C library's [strftime] (which writes the year without
    padding).  Both conversions look one day back to detect a repeated
    local time, so they fail with [ValueError] on the first day of year 1.
    It serves the examples; the theorems hold for every platform. *)

Definition days_from_civil (y m d : Z) : Z :=
  let y' := if (m <=? 2)%Z then y - 1 else y in
  let era := y' / 400 in
  let yoe := y' - era * 400 in
  let mp := if (m >? 2)%Z then m - 3 else m + 9 in
  let doy := (153 * mp + 2) / 5 + d - 1 in
  let doe := yoe * 365 + yoe / 4 - yoe / 100 + doy in
  era * 146097 + doe - 719468.

Definition civil_from_days (z : Z) : Z * Z * Z :=
  let z' := z + 719468 in
  let era := z' / 146097 in
  let doe := z' - era * 146097 in
  let yoe := (doe - doe / 1460 + doe / 36524 - doe / 146096) / 365 in
  let doy := doe - (365 * yoe + yoe / 4 - yoe / 100) in
  let mp := (5 * doy + 2) / 153 in
  let d := doy - (153 * mp + 2) / 5 + 1 in
  let m := if (mp <? 10)%Z then mp + 3 else mp - 9 in
  let y := yoe + era * 400 in
  (if (m <=? 2)%Z then y + 1 else y, m, d).

Fixpoint zero_pad (width : nat) (s : string) : string :=
  match width with
  | O => s
  | S w => if (String.length s <=? w)%nat then zero_pad w ("0" ++ s) else s
  end.

Definition utc_date_of_timestamp (n : Z) : string + time_error :=
  if ((n <? - 2 ^ 63) || (2 ^ 63 <=? n))%Z then inr TimeOverflowError
  else
    let '(y, m, d) := civil_from_days (n / 86400) in
    let '(y0, _, _) := civil_from_days (n / 86400 - 1) in
    if ((y - 1900 <? - 2 ^ 31) || (2 ^ 31 <=? y - 1900))%Z then inr TimeOSError
    else if ((y0 <? MINYEAR) || (MAXYEAR <? y))%Z then inr TimeValueError
    else inl (str_of_Z y ++ "-" ++ zero_pad 2 (str_of_Z m)
                ++ "-" ++ zero_pad 2 (str_of_Z d)).

Definition utc_timestamp_of_date (y m d : Z) : Z + time_error :=
  if (days_from_civil y m d - 1 <? days_from_civil MINYEAR 1 1)%Z
  then inr TimeValueError
  else inl (days_from_civil y m d * 86400).

Definition utc : platform :=
  {| local_date_of_timestamp := utc_date_of_timestamp;
     timestamp_of_local_date := utc_timestamp_of_date |}.

End Clock.

(* ================================================================== *)
(** ** [scripts/lib/hn_search.py] *)
(* ================================================================== *)

Module HN.
Import Py Clock.

(** Algolia HN Search API endpoint *)
Definition HN_API_URL : string := "https://hn.algolia.com/api/v1/search_by_date".

(** Depth configuration: (min_results, max_results) per depth level *)
Definition DEPTH_CONFIG : list (string * (Z * Z)) :=
  [ ("quick", (8, 12));
    ("default", (20, 30));
    ("deep", (50, 70)) ].

(** [DEPTH_CONFIG[k]] *)
Definition depth_index (k : string) : result (Z * Z) :=
  match lookup k DEPTH_CONFIG with
  | Some p => Ok p
  | None => Raise KeyError
  end.

(** What the module does to the world: requests through the HTTP helper
    and output on the error stream. *)
Inductive event : Type :=
| HttpGet (url : string) (timeout : Z)
| StderrWrite (text : string)
| StderrFlush.

Definition newline : string := String (ascii_of_N 10) "".

Definition _log_error (msg : string) : list event :=
  [ StderrWrite ("[HN] ERROR: " ++ msg ++ newline); StderrFlush ].

Definition _log_info (msg : string) : list event :=
  [ StderrWrite ("[HN] " ++ msg ++ newline); StderrFlush ].

(** *** [urllib.parse.urlencode]

    Every key and value is passed through [str] and [quote_plus]: letters,
    digits and [_.-~] are kept, a space becomes [+], and every other
    character is written as the [%XX] of the bytes of its UTF-8 encoding. *)

Definition always_safe (c : ascii) : bool :=
  char_in "a" "z" c || char_in "A" "Z" c || char_in "0" "9" c
  || Ascii.eqb c "_" || Ascii.eqb c "." || Ascii.eqb c "-" || Ascii.eqb c "~".

Definition percent (n : N) : string :=
  String "%" (String (hex_upper (n / 16)) (String (hex_upper (n mod 16)) "")).

Definition quote_plus_char (c : ascii) : string :=
  let n := N_of_ascii c in
  if always_safe c then String c ""
  else if Ascii.eqb c " " then "+"
  else if (n <? 128)%N then percent n
  else percent (192 + n / 64) ++ percent (128 + n mod 64).

Fixpoint quote_plus (s : string) : string :=
  match s with
  | "" => ""
  | String c s' => quote_plus_char c ++ quote_plus s'
  end.

Definition urlencode (params : dict) : string :=
  String.concat "&"
    (map (fun kv => quote_plus (fst kv) ++ "=" ++ quote_plus (py_str (snd kv)))
         params).

(** The outcome of [http.get(url, timeout=30)]: the decoded response, or an
    exception.  The helper module is not part of the modelled sources; it is
    a parameter. *)
Inductive http_outcome : Type :=
| HttpReturn (response : value)
| HttpRaise (e : foreign_exception).

(** A normalized item.  [date] is [None] or the text of a date. *)
Record engagement_t : Type := mk_engagement {
  score : value;
  num_comments : value
}.

Record item : Type := mk_item {
  id : string;
  title : value;
  url : value;
  hn_url : string;
  author : value;
  date : option string;
  engagement : engagement_t;
  relevance : Q;
  why_relevant : string
}.

Definition HN_ITEM_URL : string := "https://news.ycombinator.com/item?id=".

Section WithPlatform.

Variable P : platform.
Variable http_get : string -> Z -> http_outcome.

(** Convert YYYY-MM-DD to Unix timestamp. *)
Definition _date_to_timestamp (date_str : string) : result Z :=
  dt <- strptime_ymd date_str ;;
  let '(y, m, d) := dt in
  lift_time (timestamp_of_local_date P y m d).

(** Convert Unix timestamp to YYYY-MM-DD.  [fromtimestamp] takes integers
    (and booleans, which are integers); any other object is a
    [TypeError]. *)
Definition _timestamp_to_date (ts : value) : result string :=
  match ts with
  | VInt n => lift_time (local_date_of_timestamp P n)
  | VBool b => lift_time (local_date_of_timestamp P (if b then 1 else 0))
  | VNone | VStr _ | VList _ | VDict _ => Raise TypeError
  end.

(** The query parameters of a search. *)
Definition search_params (topic : string) (from_ts to_ts max_results : Z) : dict :=
  [ ("query", VStr topic);
    ("tags", VStr "story");
    ("numericFilters",
       VStr ("created_at_i>=" ++ str_of_Z from_ts
             ++ ",created_at_i<=" ++ str_of_Z to_ts));
    ("hitsPerPage", VInt max_results) ].

(** The part of [search_hn] between the test of [mock_response] and the
    [try]: it computes the URL, and what it raises reaches the caller. *)
Definition search_url (topic from_date to_date depth : string) : result string :=
  dflt <- depth_index "default" ;;
  let '(min_results, max_results) :=
    match lookup depth DEPTH_CONFIG with Some p => p | None => dflt end in
  from_ts <- _date_to_timestamp from_date ;;
  to_ts0 <- _date_to_timestamp to_date ;;
  let to_ts := to_ts0 + 86400 in
  let params := search_params topic from_ts to_ts max_results in
  Ok (HN_API_URL ++ "?" ++ urlencode params).

(** The result returned on failure *)
Definition error_result (e : foreign_exception) : value :=
  VDict [ ("error", VStr (exc_str e)); ("hits", VList []) ].

(** Search Hacker News via Algolia API: the value returned or the exception
    raised, and the events performed, in order.  [mock_response] is [VNone]
    when the argument is not given. *)
Definition search_hn (topic from_date to_date depth : string)
    (mock_response : value) : result value * list event :=
  match mock_response with
  | VNone =>
      match search_url topic from_date to_date depth with
      | Raise e => (Raise e, [])
      | Ok url =>
          match http_get url 30 with
          | HttpReturn response => (Ok response, [HttpGet url 30])
          | HttpRaise e =>
              if exc_is_HTTPError e then
                (Ok (error_result e),
                 HttpGet url 30 :: _log_error ("API error: " ++ exc_str e))
              else if exc_is_Exception e then
                (Ok (error_result e),
                 HttpGet url 30
                   :: _log_error (exc_type_name e ++ ": " ++ exc_str e))
              else (Raise (Foreign e), [HttpGet url 30])
          end
      end
  | _ => (Ok mock_response, [])
  end.

(** The body of the loop of [parse_hn_response] for the hit at index [i]:
    [None] is [continue], [Some it] is the item appended.  The hit is not
    modified, so [hit.get("title")] and [hit.get("story_title")], which the
    source evaluates for the test and again for the [title] field, are bound
    once; the steps that can raise keep the order of the source: the date,
    then the slice of the caption. *)
Definition parse_hit (i : nat) (hit : value) : result (option item) :=
  t <- py_get hit "title" VNone ;;
  st <- py_get hit "story_title" VNone ;;
  if negb (truthy t) && negb (truthy st) then Ok None
  else
    object_id <- py_get hit "objectID" (VStr "") ;;
    u <- py_get hit "url" VNone ;;
    let story_url := py_or u (VStr (HN_ITEM_URL ++ py_str object_id)) in
    let hn_url := HN_ITEM_URL ++ py_str object_id in
    created_at <- py_get hit "created_at_i" VNone ;;
    date_str <-
      (if truthy created_at then
         match _timestamp_to_date created_at with
         | Ok s => Ok (Some s)
         | Raise ValueError | Raise OSError => Ok None
         | Raise e => Raise e
         end
       else Ok None) ;;
    a <- py_get hit "author" VNone ;;
    points <- py_get hit "points" VNone ;;
    comments <- py_get hit "num_comments" VNone ;;
    caption_title <- py_get hit "title" (VStr "topic") ;;
    caption <- py_slice_to 50 caption_title ;;
    Ok (Some
      {| id := "HN" ++ str_of_nat (i + 1);
         title := py_or t (py_or st (VStr ""));
         url := story_url;
         hn_url := hn_url;
         author := py_or a (VStr "");
         date := date_str;
         engagement := {| score := points; num_comments := comments |};
         relevance := 7 # 10;
         why_relevant := "Hacker News discussion about " ++ py_str caption |}).

(** The loop over [enumerate(hits)], with the list [items] it appends to. *)
Fixpoint parse_loop (hits : list (nat * value)) (items : list item)
    : result (list item) :=
  match hits with
  | [] => Ok items
  | (i, hit) :: hits' =>
      r <- parse_hit i hit ;;
      match r with
      | None => parse_loop hits' items
      | Some it => parse_loop hits' (items ++ [it])%list
      end
  end.

(** Parse Algolia HN API response into normalized items. *)
Definition parse_hn_response (response : dict) : result (list item) :=
  if has_key "error" response then Ok []
  else
    let hits := dict_get response "hits" (VList []) in
    hs <- py_iter hits ;;
    parse_loop (enumerate hs) [].

End WithPlatform.

End HN.

(* ================================================================== *)
(** ** [scripts/lib/ui.py]: the spinner *)
(* ================================================================== *)

Module UI.

Definition ESC : string := String (ascii_of_N 27) "".
Definition CR : string := String (ascii_of_N 13) "".
Definition LF : string := String (ascii_of_N 10) "".

(** ANSI color codes *)
Module Colors.
Definition PURPLE : string := ESC ++ "[95m".
Definition BLUE : string := ESC ++ "[94m".
Definition CYAN : string := ESC ++ "[96m".
Definition GREEN : string := ESC ++ "[92m".
Definition YELLOW : string := ESC ++ "[93m".
Definition RED : string := ESC ++ "[91m".
Definition BOLD : string := ESC ++ "[1m".
Definition DIM : string := ESC ++ "[2m".
Definition RESET : string := ESC ++ "[0m".
End Colors.

(** Spinner frames *)
Definition SPINNER_FRAMES : list string :=
  ["⠋"; "⠙"; "⠹"; "⠸"; "⠼"; "⠴"; "⠦"; "⠧"; "⠇"; "⠏"].

(** What a spinner does to the world: text on the error stream, and the
    life of its animation thread. *)
Inductive event : Type :=
| Write (text : string)      (* sys.stderr.write(text) *)
| Flush                      (* sys.stderr.flush() *)
| ThreadStart                (* threading.Thread(target=self._spin, daemon=True).start() *)
| ThreadJoin (timeout_ms : Z)
| Sleep (ms : Z).

Inductive thread_t : Type := SpinThread.

Record Spinner : Type := mk_Spinner {
  message : string;
  color : string;
  running : bool;
  thread : option thread_t;
  frame_idx : nat;
  shown_static : bool
}.

(** [Spinner(message, color)] *)
Definition __init__ (message color : string) : Spinner :=
  {| message := message;
     color := color;
     running := false;
     thread := None;
     frame_idx := 0;
     shown_static := false |}.

Fixpoint repeat_string (n : nat) (s : string) : string :=
  match n with
  | O => ""
  | S n' => s ++ repeat_string n' s
  end.

Section WithTerminal.

(** [sys.stderr.isatty()], read once when the module is loaded *)
Variable IS_TTY : bool.

(** One turn of the loop of [_spin], taken while [running] holds. *)
Definition _spin_turn (self : Spinner) : Spinner * list event :=
  let frame :=
    nth (frame_idx self mod List.length SPINNER_FRAMES) SPINNER_FRAMES "" in
  ({| message := message self;
      color := color self;
      running := running self;
      thread := thread self;
      frame_idx := frame_idx self + 1;
      shown_static := shown_static self |},
   [ Write (CR ++ color self ++ frame ++ Colors.RESET ++ " "
               ++ message self ++ "  ");
     Flush;
     Sleep 80 ]).

Definition start (self : Spinner) : Spinner * list event :=
  if IS_TTY then
    ({| message := message self;
        color := color self;
        running := true;
        thread := Some SpinThread;
        frame_idx := frame_idx self;
        shown_static := shown_static self |},
     [ ThreadStart ])
  else if negb (shown_static self) then
    ({| message := message self;
        color := color self;
        running := true;
        thread := thread self;
        frame_idx := frame_idx self;
        shown_static := true |},
     [ Write ("⏳ " ++ message self ++ LF); Flush ])
  else
    ({| message := message self;
        color := color self;
        running := true;
        thread := thread self;
        frame_idx := frame_idx self;
        shown_static := shown_static self |},
     []).

Definition update (self : Spinner) (new_message : string) : Spinner * list event :=
  ({| message := new_message;
      color := color self;
      running := running self;
      thread := thread self;
      frame_idx := frame_idx self;
      shown_static := shown_static self |},
   if negb IS_TTY && negb (shown_static self)
   then [ Write ("⏳ " ++ new_message ++ LF); Flush ]
   else []).

Definition stop (self : Spinner) (final_message : string) : Spinner * list event :=
  ({| message := message self;
      color := color self;
      running := false;
      thread := thread self;
      frame_idx := frame_idx self;
      shown_static := shown_static self |},
   (match thread self with Some _ => [ ThreadJoin 200 ] | None => [] end)
   ++ (if IS_TTY then [ Write (CR ++ repeat_string 80 " " ++ CR) ] else [])
   ++ (if negb (final_message =? "")%string
       then [ Write ("✓ " ++ final_message ++ LF) ] else [])
   ++ [ Flush ])%list.

(** The calls a client makes on a spinner, and their effect in sequence. *)
Inductive call : Type :=
| Start
| Update (new_message : string)
| Stop (final_message : string).

Definition perform (self : Spinner) (c : call) : Spinner * list event :=
  match c with
  | Start => start self
  | Update m => update self m
  | Stop m => stop self m
  end.

Fixpoint run (self : Spinner) (cs : list call) : Spinner * list event :=
  match cs with
  | [] => (self, [])
  | c :: cs' =>
      let '(self', out) := perform self c in
      let '(self'', out') := run self' cs' in
      (self'', out ++ out')%list
  end.

End WithTerminal.

(** The texts written to the error stream, in order. *)
Definition written (out : list event) : list string :=
  flat_map (fun e => match e with Write t => [t] | _ => [] end) out.

(** *** The animation loop

    [_spin] runs on the thread of the spinner; nothing in it changes
    [running], which only [stop] clears, from another thread.  [_spin n] is
    the loop followed for at most [n] turns. *)
Fixpoint _spin (turns : nat) (self : Spinner) : Spinner * list event :=
  match turns with
  | O => (self, [])
  | S n =>
      if running self then
        let '(self', out) := _spin_turn self in
        let '(self'', out') := _spin n self' in
        (self'', out ++ out')%list
      else (self, [])
  end.

(** *** Progress display for research phases *)

Definition MINI_BANNER : string :=
  Colors.PURPLE ++ Colors.BOLD ++ "/last30days" ++ Colors.RESET ++ " "
  ++ Colors.DIM ++ "· researching..." ++ Colors.RESET.

(** Fun status messages for each phase *)
Definition REDDIT_MESSAGES : list string :=
  [ "Diving into Reddit threads...";
    "Scanning subreddits for gold...";
    "Reading what Redditors are saying...";
    "Exploring the front page of the internet...";
    "Finding the good discussions...";
    "Upvoting mentally...";
    "Scrolling through comments..." ].

Definition X_MESSAGES : list string :=
  [ "Checking what X is buzzing about...";
    "Reading the timeline...";
    "Finding the hot takes...";
    "Scanning tweets and threads...";
    "Discovering trending insights...";
    "Following the conversation...";
    "Reading between the posts..." ].

Definition ENRICHING_MESSAGES : list string :=
  [ "Getting the juicy details...";
    "Fetching engagement metrics...";
    "Reading top comments...";
    "Extracting insights...";
    "Analyzing discussions..." ].

Definition PROCESSING_MESSAGES : list string :=
  [ "Crunching the data...";
    "Scoring and ranking...";
    "Finding patterns...";
    "Removing duplicates...";
    "Organizing findings..." ].

(** [random.choice(pool)] when the generator draws [r]: the element of
    index [r] modulo the length.  The pools are the four lists above, none
    of them empty. *)
Definition choice (r : nat) (pool : list string) : string :=
  nth (r mod List.length pool) pool "".

(** The state of a display.  [start_time] is the reading of the clock at
    construction. *)
Record ProgressDisplay : Type := mk_ProgressDisplay {
  topic : string;
  spinner : option Spinner;
  start_time : Q
}.

Definition set_spinner (self : ProgressDisplay) (sp : Spinner) : ProgressDisplay :=
  {| topic := topic self; spinner := Some sp; start_time := start_time self |}.

Section Display.

Variable IS_TTY : bool.

Definition _show_banner (self : ProgressDisplay) : list event :=
  (if IS_TTY then
     [ Write (MINI_BANNER ++ LF);
       Write (Colors.DIM ++ "Topic: " ++ Colors.RESET ++ Colors.BOLD
                ++ topic self ++ Colors.RESET ++ LF ++ LF) ]
   else
     [ Write ("/last30days · researching: " ++ topic self ++ LF) ])
  ++ [ Flush ].

(** [ProgressDisplay(topic, show_banner)], the clock reading [now] *)
Definition new_display (now : Q) (topic : string) (show_banner : bool)
    : ProgressDisplay * list event :=
  let self := {| topic := topic; spinner := None; start_time := now |} in
  (self, if show_banner then _show_banner self else []).

(** A new spinner with the given message takes the place of the current
    one, and is started. *)
Definition start_with (self : ProgressDisplay) (message color : string)
    : ProgressDisplay * list event :=
  let '(sp, out) := start IS_TTY (__init__ message color) in
  (set_spinner self sp, out).

(** The current spinner, if there is one, is stopped. *)
Definition stop_current (self : ProgressDisplay) (final_message : string)
    : ProgressDisplay * list event :=
  match spinner self with
  | Some sp =>
      let '(sp', out) := stop IS_TTY sp final_message in
      (set_spinner self sp', out)
  | None => (self, [])
  end.

Definition start_reddit (r : nat) (self : ProgressDisplay)
    : ProgressDisplay * list event :=
  let msg := choice r REDDIT_MESSAGES in
  start_with self (Colors.YELLOW ++ "Reddit" ++ Colors.RESET ++ " " ++ msg)
             Colors.YELLOW.

Definition end_reddit (count : Z) (self : ProgressDisplay)
    : ProgressDisplay * list event :=
  stop_current self
    (Colors.YELLOW ++ "Reddit" ++ Colors.RESET ++ " Found "
       ++ Py.str_of_Z count ++ " threads").

Definition enrich_message (current total : Z) (msg : string) : string :=
  Colors.YELLOW ++ "Reddit" ++ Colors.RESET ++ " ["
    ++ Py.str_of_Z current ++ "/" ++ Py.str_of_Z total ++ "] " ++ msg.

Definition start_reddit_enrich (r : nat) (current total : Z)
    (self : ProgressDisplay) : ProgressDisplay * list event :=
  let '(self', out) := stop_current self "" in
  let msg := choice r ENRICHING_MESSAGES in
  let '(self'', out') :=
    start_with self' (enrich_message current total msg) Colors.YELLOW in
  (self'', out ++ out')%list.

Definition update_reddit_enrich (r : nat) (current total : Z)
    (self : ProgressDisplay) : ProgressDisplay * list event :=
  match spinner self with
  | Some sp =>
      let msg := choice r ENRICHING_MESSAGES in
      let '(sp', out) := update IS_TTY sp (enrich_message current total msg) in
      (set_spinner self sp', out)
  | None => (self, [])
  end.

Definition end_reddit_enrich (self : ProgressDisplay)
    : ProgressDisplay * list event :=
  stop_current self
    (Colors.YELLOW ++ "Reddit" ++ Colors.RESET ++ " Enriched with engagement data").

Definition start_x (r : nat) (self : ProgressDisplay)
    : ProgressDisplay * list event :=
  let msg := choice r X_MESSAGES in
  start_with self (Colors.CYAN ++ "X" ++ Colors.RESET ++ " " ++ msg) Colors.CYAN.

Definition end_x (count : Z) (self : ProgressDisplay)
    : ProgressDisplay * list event :=
  stop_current self
    (Colors.CYAN ++ "X" ++ Colors.RESET ++ " Found "
       ++ Py.str_of_Z count ++ " posts").

Definition start_processing (r : nat) (self : ProgressDisplay)
    : ProgressDisplay * list event :=
  let msg := choice r PROCESSING_MESSAGES in
  start_with self (Colors.PURPLE ++ "Processing" ++ Colors.RESET ++ " " ++ msg)
             Colors.PURPLE.

Definition end_processing (self : ProgressDisplay)
    : ProgressDisplay * list event :=
  stop_current self "".

Definition show_error (message : string) (self : ProgressDisplay)
    : ProgressDisplay * list event :=
  (self,
   [ Write (Colors.RED ++ "✗ Error:" ++ Colors.RESET ++ " " ++ message ++ LF);
     Flush ]).

(** The calls on a display, with the draws of the generator, and their
    effect in sequence. *)
Inductive display_call : Type :=
| StartReddit (r : nat)
| EndReddit (count : Z)
| StartRedditEnrich (r : nat) (current total : Z)
| UpdateRedditEnrich (r : nat) (current total : Z)
| EndRedditEnrich
| StartX (r : nat)
| EndX (count : Z)
| StartProcessing (r : nat)
| EndProcessing
| ShowError (message : string).

Definition display_perform (self : ProgressDisplay) (c : display_call)
    : ProgressDisplay * list event :=
  match c with
  | StartReddit r => start_reddit r self
  | EndReddit n => end_reddit n self
  | StartRedditEnrich r c t => start_reddit_enrich r c t self
  | UpdateRedditEnrich r c t => update_reddit_enrich r c t self
  | EndRedditEnrich => end_reddit_enrich self
  | StartX r => start_x r self
  | EndX n => end_x n self
  | StartProcessing r => start_processing r self
  | EndProcessing => end_processing self
  | ShowError m => show_error m self
  end.

Fixpoint display_run (self : ProgressDisplay) (cs : list display_call)
    : ProgressDisplay * list event :=
  match cs with
  | [] => (self, [])
  | c :: cs' =>
      let '(self', out) := display_perform self c in
      let '(self'', out') := display_run self' cs' in
      (self'', out ++ out')%list
  end.

End Display.

(** Print a phase message. *)
Definition phase_colors : list (string * string) :=
  [ ("reddit", Colors.YELLOW);
    ("x", Colors.CYAN);
    ("process", Colors.PURPLE);
    ("done", Colors.GREEN);
    ("error", Colors.RED) ].

Definition print_phase (phase message : string) : list event :=
  let color :=
    match Py.lookup phase phase_colors with
    | Some c => c
    | None => Colors.RESET
    end in
  [ Write (color ++ "▸" ++ Colors.RESET ++ " " ++ message ++ LF); Flush ].

End UI.

(* ================================================================== *)
(** ** Vocabulary of the statements *)
(* ================================================================== *)

Import Py Clock HN.

(** [response.get("hits", [])] *)
Definition hits_of (response : dict) : value :=
  dict_get response "hits" (VList []).

(** The field [k] of a hit is absent or empty: [hit.get(k)] is falsy. *)
Definition blank (k : string) (hit : value) : bool :=
  match hit with
  | VDict d => negb (truthy (dict_get d k VNone))
  | _ => true
  end.

(** Both title fields of the hit are absent or empty. *)
Definition excluded (hit : value) : bool :=
  blank "title" hit && blank "story_title" hit.

Definition kept (hit : value) : bool := negb (excluded hit).

(** The title of the item of a hit: [title], falling back to
    [story_title]. *)
Definition resolved_title (hit : value) : value :=
  match hit with
  | VDict d =>
      py_or (dict_get d "title" VNone)
            (py_or (dict_get d "story_title" VNone) (VStr ""))
  | _ => VStr ""
  end.

(** A [created_at_i] on which the date step does not raise: a falsy value,
    or an integer that the platform converts or rejects with [ValueError]
    or [OSError]. *)
Definition timestamp_tolerated (P : platform) (c : value) : bool :=
  negb (truthy c)
  || match c with
     | VInt n =>
         match local_date_of_timestamp P n with
         | inr TimeOverflowError => false
         | _ => true
         end
     | VBool b =>
         match local_date_of_timestamp P (if b then 1 else 0) with
         | inr TimeOverflowError => false
         | _ => true
         end
     | _ => false
     end.

(** A [title] that [[:50]] accepts: absent, a string or a list. *)
Definition title_sliceable (d : dict) : bool :=
  match lookup "title" d with
  | None | Some (VStr _) | Some (VList _) => true
  | Some _ => false
  end.

(** The hits on which the body of the loop does not raise: objects that
    are either skipped or have a tolerated timestamp and a sliceable
    title. *)
Definition processable (P : platform) (hit : value) : bool :=
  match hit with
  | VDict d =>
      excluded hit
      || (timestamp_tolerated P (dict_get d "created_at_i" VNone)
          && title_sliceable d)
  | _ => false
  end.

(** The date step of the loop body, as a function of [created_at_i]. *)
Definition date_step (P : platform) (c : value) : result (option string) :=
  if truthy c then
    match _timestamp_to_date P c with
    | Ok s => Ok (Some s)
    | Raise ValueError | Raise OSError => Ok None
    | Raise e => Raise e
    end
  else Ok None.

(** The enumerated hits that are not skipped. *)
Definition kept_hits (hs : list value) : list (nat * value) :=
  filter (fun ih => kept (snd ih)) (enumerate hs).

(** The tag of the hit at index [i] of the input. *)
Definition tag (i : nat) : string := "HN" ++ str_of_nat (i + 1).

(** The caption of an item for the text [t]. *)
Definition caption (t : string) : string :=
  "Hacker News discussion about " ++ t.

(** What the caption of a hit embeds, when its [title] is a string or is
    not there. *)
Definition caption_text (hit : value) : option string :=
  match hit with
  | VDict d =>
      match lookup "title" d with
      | None => Some "topic"
      | Some (VStr s) => Some (str_take 50 s)
      | Some _ => None
      end
  | _ => None
  end.

(** The date text of the form the docstrings name, taken strictly: four
    digits, a dash, two digits, a dash, two digits. *)
Definition is_digit (c : ascii) : bool := char_in "0" "9" c.

Definition YYYY_MM_DD (s : string) : bool :=
  match list_ascii_of_string s with
  | [y1; y2; y3; y4; d1; m1; m2; d2; a1; a2] =>
      is_digit y1 && is_digit y2 && is_digit y3 && is_digit y4
      && Ascii.eqb d1 "-" && is_digit m1 && is_digit m2
      && Ascii.eqb d2 "-" && is_digit a1 && is_digit a2
  | _ => false
  end.

(** The same form with the leading zero of the month and of the day
    optional, and a one-digit day possibly written after a space. *)
Definition day_text (l : list ascii) : bool :=
  match l with
  | [a] => is_digit a
  | [a; b] => (is_digit a || Ascii.eqb a " ") && is_digit b
  | _ => false
  end.

Definition month_day_text (l : list ascii) : bool :=
  match l with
  | m1 :: d2 :: rest =>
      if Ascii.eqb d2 "-" then is_digit m1 && day_text rest
      else
        match rest with
        | d2' :: rest' =>
            is_digit m1 && is_digit d2 && Ascii.eqb d2' "-" && day_text rest'
        | [] => false
        end
  | _ => false
  end.

Definition Y_M_D (s : string) : bool :=
  match list_ascii_of_string s with
  | y1 :: y2 :: y3 :: y4 :: d1 :: rest =>
      is_digit y1 && is_digit y2 && is_digit y3 && is_digit y4
      && Ascii.eqb d1 "-" && month_day_text rest
  | _ => false
  end.

(** The page size a depth stands for in the table of the specification. *)
Definition page_size (depth : string) : Z :=
  if (depth =? "quick")%string then 12
  else if (depth =? "default")%string then 30
  else if (depth =? "deep")%string then 70
  else 30.

(** A failure of the transport or of the protocol: an exception of the
    helper's [HTTPError] class or of any class derived from [Exception]. *)
Definition is_failure (e : foreign_exception) : bool :=
  exc_is_HTTPError e || exc_is_Exception e.

(** The line [_log_error] writes for a failure. *)
Definition failure_log (e : foreign_exception) : string :=
  "[HN] ERROR: "
  ++ (if exc_is_HTTPError e then "API error: " ++ exc_str e
      else exc_type_name e ++ ": " ++ exc_str e)
  ++ newline.

(** The URL of a search, written out: the topic quoted, the two bounds of
    the numeric filter, and the page size. *)
Definition search_request (topic : string) (from_ts to_ts : Z) (page : string)
    : string :=
  "https://hn.algolia.com/api/v1/search_by_date?query=" ++ quote_plus topic
  ++ "&tags=story&numericFilters=created_at_i%3E%3D" ++ str_of_Z from_ts
  ++ "%2Ccreated_at_i%3C%3D" ++ str_of_Z to_ts
  ++ "&hitsPerPage=" ++ page.

(** The requests among the events of a call, as (URL, timeout). *)
Definition requests (log : list HN.event) : list (string * Z) :=
  flat_map (fun e => match e with HttpGet u t => [(u, t)] | _ => [] end) log.

(** Sample data for the examples: three hits, the second without a title
    field, the third with a [story_title] only. *)
Definition hits_sample : list value :=
  [ VDict [ ("title", VStr "A"); ("objectID", VStr "1");
            ("created_at_i", VInt 1700000000) ];
    VDict [ ("objectID", VStr "2") ];
    VDict [ ("story_title", VStr "B"); ("objectID", VStr "3") ] ].

Definition response_sample : dict := [ ("hits", VList hits_sample) ].

(** A hit whose timestamp is a text, and a response made of it. *)
Definition hit_text_timestamp : dict :=
  [ ("title", VStr "A"); ("objectID", VStr "1"); ("created_at_i", VStr "abc") ].

Definition response_text_timestamp : dict :=
  [ ("hits", VList [ VDict hit_text_timestamp ]) ].

Definition response_failed : dict :=
  [ ("error", VStr "timed out"); ("hits", VList hits_sample) ].

(** Two environments for the examples: a service that answers every
    request with no hits, and a network on which every request times out. *)
Definition http_no_hits : string -> Z -> http_outcome :=
  fun _ _ => HttpReturn (VDict [ ("hits", VList []) ]).

Definition timed_out : foreign_exception :=
  {| exc_type_name := "TimeoutError";
     exc_str := "timed out";
     exc_is_HTTPError := false;
     exc_is_Exception := true |}.

Definition http_timeout : string -> Z -> http_outcome :=
  fun _ _ => HttpRaise timed_out.

(** [hit.get(k, default)] for a hit that is an object. *)
Definition hit_field (hit : value) (k : string) (default : value) : value :=
  match hit with
  | VDict d => dict_get d k default
  | _ => default
  end.

Definition is_object (v : value) : bool :=
  match v with
  | VDict _ => true
  | _ => false
  end.

(** The values a [for] loop accepts. *)
Definition iterable (v : value) : bool :=
  match v with
  | VList _ | VStr _ | VDict _ => true
  | VNone | VBool _ | VInt _ => false
  end.

(** The items of the sample response on the reference platform. *)
Definition items_sample : list item :=
  [ {| id := "HN1";
       title := VStr "A";
       url := VStr "https://news.ycombinator.com/item?id=1";
       hn_url := "https://news.ycombinator.com/item?id=1";
       author := VStr "";
       date := Some "2023-11-14";
       engagement := {| score := VNone; num_comments := VNone |};
       relevance := 7 # 10;
       why_relevant := "Hacker News discussion about A" |};
    {| id := "HN3";
       title := VStr "B";
       url := VStr "https://news.ycombinator.com/item?id=3";
       hn_url := "https://news.ycombinator.com/item?id=3";
       author := VStr "";
       date := None;
       engagement := {| score := VNone; num_comments := VNone |};
       relevance := 7 # 10;
       why_relevant := "Hacker News discussion about topic" |} ].

(** A display that has started no phase, and a spinner that has not been
    started. *)
Definition display_sample : UI.ProgressDisplay :=
  {| UI.topic := "rust"; UI.spinner := None; UI.start_time := 0%Q |}.

Definition spinner_sample : UI.Spinner :=
  UI.__init__ "Working" UI.Colors.CYAN.

(** A response made of a list of hits only. *)
Definition response_of_hits (hs : list value) : dict := [ ("hits", VList hs) ].

(** A hit whose [title] is null beside a [story_title]. *)
Definition hit_null_title : dict :=
  [ ("title", VNone); ("story_title", VStr "B"); ("objectID", VStr "4") ].

(** An exception that is not derived from [Exception], and a network call
    interrupted by it. *)
Definition interrupted : foreign_exception :=
  {| exc_type_name := "KeyboardInterrupt";
     exc_str := "";
     exc_is_HTTPError := false;
     exc_is_Exception := false |}.

Definition http_interrupted : string -> Z -> http_outcome :=
  fun _ _ => HttpRaise interrupted.

(** The texts written to the error stream among the events of a call. *)
Definition stderr_lines (log : list HN.event) : list string :=
  flat_map (fun e => match e with StderrWrite t => [t] | _ => [] end) log.

(** Every character of a text satisfies [p]. *)
Fixpoint str_forall (p : ascii -> bool) (s : string) : bool :=
  match s with
  | "" => true
  | String c s' => p c && str_forall p s'
  end.

(** The number of occurrences of a character in a text. *)
Fixpoint count_char (c : ascii) (s : string) : nat :=
  match s with
  | "" => O
  | String c' s' => ((if Ascii.eqb c c' then 1 else 0) + count_char c s')%nat
  end.

(** The characters of a quoted text: the unreserved ones, the percent sign
    and the plus sign. *)
Definition url_char (c : ascii) : bool :=
  always_safe c || Ascii.eqb c "%" || Ascii.eqb c "+".

(** A date written with a four-digit year and two digits for the month and
    for the day. *)
Definition digit_char (n : Z) : ascii := ascii_of_N (48 + Z.to_N n).

Definition two_digits (n : Z) : string :=
  String (digit_char (n / 10)) (String (digit_char (n mod 10)) "").

Definition padded_date (y1 y2 y3 y4 : ascii) (m d : Z) : string :=
  String y1 (String y2 (String y3 (String y4
    ("-" ++ two_digits m ++ "-" ++ two_digits d)))).

Definition year_of (y1 y2 y3 y4 : ascii) : Z :=
  int_of_digits (String y1 (String y2 (String y3 (String y4 "")))).

(** The animation threads started and joined among the events of a
    spinner or of a display. *)
Definition thread_starts (out : list UI.event) : nat :=
  List.length (filter (fun e => match e with UI.ThreadStart => true | _ => false end) out).

Definition thread_joins (out : list UI.event) : nat :=
  List.length (filter (fun e => match e with UI.ThreadJoin _ => true | _ => false end) out).

(** The completion lines of the [stop] calls of a sequence. *)
Definition completion_lines (cs : list UI.call) : list string :=
  flat_map (fun c =>
              match c with
              | UI.Stop m => if (m =? "")%string then [] else ["✓ " ++ m ++ UI.LF]
              | _ => []
              end) cs.

(** The phases of a run of the pipeline, each started and ended in turn,
    with the draws of the generator. *)
Inductive phase : Type :=
| PhaseReddit (r : nat) (count : Z)
| PhaseEnrich (r : nat) (current total : Z) (updates : list (nat * Z * Z))
| PhaseX (r : nat) (count : Z)
| PhaseProcessing (r : nat).

Definition phase_calls (p : phase) : list UI.display_call :=
  match p with
  | PhaseReddit r n => [UI.StartReddit r; UI.EndReddit n]
  | PhaseEnrich r c t us =>
      (UI.StartRedditEnrich r c t
         :: map (fun u => UI.UpdateRedditEnrich (fst (fst u)) (snd (fst u)) (snd u)) us
         ++ [UI.EndRedditEnrich])%list
  | PhaseX r n => [UI.StartX r; UI.EndX n]
  | PhaseProcessing r => [UI.StartProcessing r; UI.EndProcessing]
  end.

(** The frame of the [k]-th turn of the animation, and the text the turn
    writes for a spinner. *)
Definition spinner_frame (k : nat) : string :=
  nth (k mod 10) UI.SPINNER_FRAMES "".

Definition spinner_line (self : UI.Spinner) (k : nat) : string :=
  UI.CR ++ UI.color self ++ spinner_frame k ++ UI.Colors.RESET ++ " "
  ++ UI.message self ++ "  ".

(** Among events, every thread started is joined, with the timeout of
    200 ms, before another is started and before the end, and no join has
    another timeout; [alive] tells whether a thread is running at first. *)
Fixpoint threads_joined (alive : bool) (out : list UI.event) : bool :=
  match out with
  | [] => negb alive
  | UI.ThreadStart :: out' => negb alive && threads_joined true out'
  | UI.ThreadJoin t :: out' => (t =? 200)%Z && threads_joined false out'
  | _ :: out' => threads_joined alive out'
  end.

(** The lines a phase leaves in a non-interactive log. *)
Definition phase_lines (p : phase) : list string :=
  match p with
  | PhaseReddit r n =>
      [ "⏳ " ++ (UI.Colors.YELLOW ++ "Reddit" ++ UI.Colors.RESET ++ " "
                    ++ UI.choice r UI.REDDIT_MESSAGES) ++ UI.LF;
        "✓ " ++ (UI.Colors.YELLOW ++ "Reddit" ++ UI.Colors.RESET ++ " Found "
                   ++ str_of_Z n ++ " threads") ++ UI.LF ]
  | PhaseEnrich r c t _ =>
      [ "⏳ " ++ (UI.Colors.YELLOW ++ "Reddit" ++ UI.Colors.RESET ++ " ["
                    ++ str_of_Z c ++ "/" ++ str_of_Z t ++ "] "
                    ++ UI.choice r UI.ENRICHING_MESSAGES) ++ UI.LF;
        "✓ " ++ (UI.Colors.YELLOW ++ "Reddit" ++ UI.Colors.RESET
                   ++ " Enriched with engagement data") ++ UI.LF ]
  | PhaseX r n =>
      [ "⏳ " ++ (UI.Colors.CYAN ++ "X" ++ UI.Colors.RESET ++ " "
                    ++ UI.choice r UI.X_MESSAGES) ++ UI.LF;
        "✓ " ++ (UI.Colors.CYAN ++ "X" ++ UI.Colors.RESET ++ " Found "
                   ++ str_of_Z n ++ " posts") ++ UI.LF ]
  | PhaseProcessing r =>
      [ "⏳ " ++ (UI.Colors.PURPLE ++ "Processing" ++ UI.Colors.RESET ++ " "
                    ++ UI.choice r UI.PROCESSING_MESSAGES) ++ UI.LF ]
  end.

(** The calls that end or update a phase. *)
Definition is_end_or_update (c : UI.display_call) : bool :=
  match c with
  | UI.EndReddit _ | UI.UpdateRedditEnrich _ _ _ | UI.EndRedditEnrich
  | UI.EndX _ | UI.EndProcessing => true
  | _ => false
  end.

(* ================================================================== *)
(** ** Properties of [parse_hn_response] *)
(* ================================================================== *)

Section ParseFacts.

Variable P : platform.

Lemma bind_Ok {A B : Type} (a : A) (k : A -> result B) : bind (Ok a) k = k a.
Proof. reflexivity. Qed.

Lemma bind_Ok_inv {A B : Type} (m : result A) (k : A -> result B) (b : B) :
  bind m k = Ok b -> exists a, m = Ok a /\ k a = Ok b.
Proof.
  destruct m as [a|e]; simpl; intros H.
  - exists a. split; [reflexivity | exact H].
  - discriminate.
Qed.

Lemma parse_hit_dict (i : nat) (d : dict) :
  parse_hit P i (VDict d) =
    if excluded (VDict d) then Ok None
    else
      date_str <- date_step P (dict_get d "created_at_i" VNone) ;;
      cap <- py_slice_to 50 (dict_get d "title" (VStr "topic")) ;;
      Ok (Some
        {| id := tag i;
           title := resolved_title (VDict d);
           url := py_or (dict_get d "url" VNone)
                        (VStr (HN_ITEM_URL ++ py_str (dict_get d "objectID" (VStr ""))));
           hn_url := HN_ITEM_URL ++ py_str (dict_get d "objectID" (VStr ""));
           author := py_or (dict_get d "author" VNone) (VStr "");
           date := date_str;
           engagement := {| score := dict_get d "points" VNone;
                            num_comments := dict_get d "num_comments" VNone |};
           relevance := 7 # 10;
           why_relevant := caption (py_str cap) |}).
Proof.
  unfold parse_hit, excluded, blank, date_step, tag, caption, resolved_title.
  cbn [py_get bind].
  destruct (negb (truthy (dict_get d "title" VNone))
            && negb (truthy (dict_get d "story_title" VNone))); [reflexivity|].
  destruct (truthy (dict_get d "created_at_i" VNone)); [|reflexivity].
  destruct (_timestamp_to_date P (dict_get d "created_at_i" VNone)) as [s|[]];
    reflexivity.
Qed.

Lemma parse_hit_not_dict (i : nat) (hit : value) :
  (forall d, hit <> VDict d) -> parse_hit P i hit = Raise AttributeError.
Proof.
  intros H. destruct hit; try reflexivity. exfalso. eapply H. reflexivity.
Qed.

Lemma date_step_tolerated (c : value) :
  timestamp_tolerated P c = true -> exists r, date_step P c = Ok r.
Proof.
  unfold timestamp_tolerated, date_step. intros H.
  destruct (truthy c) eqn:Ht; [|eexists; reflexivity].
  simpl in H.
  destruct c as [ |b|n|s|l|d]; try discriminate; simpl;
    match goal with
    | |- context [local_date_of_timestamp P ?n] =>
        destruct (local_date_of_timestamp P n) as [t|[]]
    end; simpl; try discriminate; eexists; reflexivity.
Qed.

Lemma date_step_raises (c : value) :
  timestamp_tolerated P c = false -> exists e, date_step P c = Raise e.
Proof.
  unfold timestamp_tolerated, date_step. intros H.
  destruct (truthy c) eqn:Ht; [|discriminate].
  simpl in H.
  destruct c as [ |b|n|s|l|d]; simpl; try (eexists; reflexivity);
    match goal with
    | |- context [local_date_of_timestamp P ?n] =>
        destruct (local_date_of_timestamp P n) as [t|[]]
    end; simpl; try discriminate; eexists; reflexivity.
Qed.

Lemma slice_sliceable (d : dict) :
  title_sliceable d = true ->
  exists v, py_slice_to 50 (dict_get d "title" (VStr "topic")) = Ok v.
Proof.
  unfold title_sliceable, dict_get.
  destruct (lookup "title" d) as [[ | | | | | ]|]; intros H;
    try discriminate; eexists; reflexivity.
Qed.

Lemma slice_not_sliceable (d : dict) :
  title_sliceable d = false ->
  exists e, py_slice_to 50 (dict_get d "title" (VStr "topic")) = Raise e.
Proof.
  unfold title_sliceable, dict_get.
  destruct (lookup "title" d) as [[ | | | | | ]|]; intros H;
    try discriminate; eexists; reflexivity.
Qed.

(** The body of the loop returns exactly on the processable hits: it skips
    the excluded ones and builds an item, tagged with the index, from the
    others. *)
Lemma parse_hit_processable (i : nat) (hit : value) :
  processable P hit = true ->
  if excluded hit then parse_hit P i hit = Ok None
  else exists it, parse_hit P i hit = Ok (Some it).
Proof.
  destruct hit as [ |b|n|s|l|d]; try discriminate.
  unfold processable. rewrite parse_hit_dict.
  destruct (excluded (VDict d)); [reflexivity|].
  simpl. intros H. apply andb_prop in H. destruct H as [Hts Hsl].
  destruct (date_step_tolerated _ Hts) as [r ->].
  destruct (slice_sliceable _ Hsl) as [v ->].
  eexists. reflexivity.
Qed.

Lemma parse_hit_not_processable (i : nat) (hit : value) :
  processable P hit = false -> exists e, parse_hit P i hit = Raise e.
Proof.
  destruct hit as [ |b|n|s|l|d]; try (intros _; eexists; reflexivity).
  unfold processable. rewrite parse_hit_dict.
  destruct (excluded (VDict d)); [discriminate|].
  simpl. intros H. apply andb_false_iff in H. destruct H as [Hts|Hsl].
  - destruct (date_step_raises _ Hts) as [e ->]. eexists. reflexivity.
  - destruct (date_step P (dict_get d "created_at_i" VNone)) as [r|e];
      [|eexists; reflexivity].
    destruct (slice_not_sliceable _ Hsl) as [e ->]. eexists. reflexivity.
Qed.

(** What an emitted item says about its hit. *)
Lemma parse_hit_Some_inv (i : nat) (hit : value) (it : item) :
  parse_hit P i hit = Ok (Some it) ->
  kept hit = true /\ id it = tag i /\ title it = resolved_title hit
  /\ (forall t, caption_text hit = Some t -> why_relevant it = caption t).
Proof.
  destruct hit as [ |b|n|s|l|d]; try discriminate.
  rewrite parse_hit_dict. unfold kept.
  destruct (excluded (VDict d)); [discriminate|].
  intros H.
  apply bind_Ok_inv in H. destruct H as (r & _ & H).
  apply bind_Ok_inv in H. destruct H as (v & Hv & H).
  injection H as <-. simpl.
  repeat split.
  intros t. unfold dict_get in Hv.
  destruct (lookup "title" d) as [[ | | |s| | ]|]; try discriminate;
    intros [= <-]; simpl in Hv; injection Hv as <-; reflexivity.
Qed.

Lemma parse_hit_None_inv (i : nat) (hit : value) :
  parse_hit P i hit = Ok None -> excluded hit = true.
Proof.
  destruct hit as [ |b|n|s|l|d]; try discriminate.
  rewrite parse_hit_dict.
  destruct (excluded (VDict d)); [reflexivity|].
  intros H.
  apply bind_Ok_inv in H. destruct H as (r & _ & H).
  apply bind_Ok_inv in H. destruct H as (v & _ & H).
  discriminate.
Qed.

(** The items of a run of the loop are the initial ones followed by one
    item for each kept hit, in order. *)
Lemma parse_loop_Ok_inv (hits : list (nat * value)) :
  forall acc items,
    parse_loop P hits acc = Ok items ->
    exists new,
      items = (acc ++ new)%list
      /\ Forall2 (fun it ih => parse_hit P (fst ih) (snd ih) = Ok (Some it))
                 new (filter (fun ih => kept (snd ih)) hits).
Proof.
  induction hits as [|[i hit] hits IH]; intros acc items H; simpl in H.
  - injection H as <-. exists []. split; [now rewrite app_nil_r | constructor].
  - apply bind_Ok_inv in H. destruct H as ([it|] & Hhit & H).
    + apply IH in H. destruct H as (new & -> & HF).
      exists (it :: new). split.
      * now rewrite <- app_assoc.
      * simpl. destruct (parse_hit_Some_inv _ _ _ Hhit) as (Hk & _).
        rewrite Hk. constructor; assumption.
    + apply IH in H. destruct H as (new & -> & HF).
      exists new. split; [reflexivity|].
      simpl. unfold kept at 1. rewrite (parse_hit_None_inv _ _ Hhit). exact HF.
Qed.

Lemma parse_loop_total (hits : list (nat * value)) :
  forall acc,
    forallb (fun ih => processable P (snd ih)) hits = true ->
    exists items, parse_loop P hits acc = Ok items.
Proof.
  induction hits as [|[i hit] hits IH]; intros acc H; simpl in *.
  - eexists. reflexivity.
  - apply andb_prop in H. destruct H as [Hp Hrest].
    pose proof (parse_hit_processable i hit Hp) as Hhit.
    destruct (excluded hit).
    + rewrite Hhit. simpl. apply IH. exact Hrest.
    + destruct Hhit as [it ->]. simpl. apply IH. exact Hrest.
Qed.

Lemma forallb_enumerate_from {A : Type} (f : A -> bool) (l : list A) :
  forall i, forallb (fun ih => f (snd ih)) (enumerate_from i l) = forallb f l.
Proof.
  induction l as [|a l IH]; intros i; simpl; [reflexivity|].
  now rewrite IH.
Qed.

Lemma length_enumerate_from {A : Type} (l : list A) :
  forall i, List.length (enumerate_from i l) = List.length l.
Proof.
  induction l as [|a l IH]; intros i; simpl; [reflexivity|].
  now rewrite IH.
Qed.

Lemma parse_loop_Ok_processable (hits : list (nat * value)) :
  forall acc items,
    parse_loop P hits acc = Ok items ->
    forallb (fun ih => processable P (snd ih)) hits = true.
Proof.
  induction hits as [|[i hit] hits IH]; intros acc items H; [reflexivity|].
  cbn [parse_loop] in H. apply bind_Ok_inv in H. destruct H as (r & Hhit & H).
  cbn [forallb snd]. apply andb_true_intro. split.
  - destruct (processable P hit) eqn:E; [reflexivity|].
    destruct (parse_hit_not_processable i hit E) as [e He]. congruence.
  - destruct r as [it|]; eapply IH; exact H.
Qed.

(** A hit on which the body raises ends the loop with that exception, once
    the hits before it have been processed. *)
Lemma parse_loop_raises (pre : list value) :
  forall i acc hit post e,
    forallb (processable P) pre = true ->
    (forall j, parse_hit P j hit = Raise e) ->
    parse_loop P (enumerate_from i (pre ++ hit :: post)%list) acc = Raise e.
Proof.
  induction pre as [|h pre IH]; intros i acc hit post e Hpre Hhit.
  - cbn [app enumerate_from parse_loop]. now rewrite Hhit.
  - cbn [forallb] in Hpre. apply andb_prop in Hpre. destruct Hpre as [Hh Hpre].
    cbn [app enumerate_from parse_loop].
    pose proof (parse_hit_processable i h Hh) as Hr.
    destruct (excluded h).
    + rewrite Hr. cbn [bind]. now apply IH.
    + destruct Hr as [it ->]. cbn [bind]. now apply IH.
Qed.

(** A kept hit whose [created_at_i] is a text that is not empty. *)
Lemma parse_hit_text_timestamp (i : nat) (d : dict) (s : string) :
  kept (VDict d) = true ->
  dict_get d "created_at_i" VNone = VStr s ->
  s <> "" ->
  parse_hit P i (VDict d) = Raise TypeError.
Proof.
  intros Hk Hc Hs. rewrite parse_hit_dict.
  unfold kept in Hk. apply negb_true_iff in Hk. rewrite Hk, Hc.
  unfold date_step. cbn [truthy _timestamp_to_date].
  apply String.eqb_neq in Hs. rewrite Hs. reflexivity.
Qed.

(** Without an [error] key, the call returns exactly when every hit is
    processable. *)
Lemma parse_returns_iff (response : dict) (hs : list value) :
  has_key "error" response = false ->
  py_iter (hits_of response) = Ok hs ->
  forallb (processable P) hs = true
  <-> exists items, parse_hn_response P response = Ok items.
Proof.
  intros Herr Hit. unfold parse_hn_response. rewrite Herr.
  fold (hits_of response). rewrite Hit. cbn [bind]. split.
  - intros Hok. apply parse_loop_total.
    unfold enumerate. now rewrite forallb_enumerate_from.
  - intros [items H]. apply parse_loop_Ok_processable in H.
    unfold enumerate in H. now rewrite forallb_enumerate_from in H.
Qed.

(** What it returns is one item per kept hit, in the order of the hits. *)
Lemma parse_Ok_inv (response : dict) (hs : list value) (items : list item) :
  has_key "error" response = false ->
  py_iter (hits_of response) = Ok hs ->
  parse_hn_response P response = Ok items ->
  Forall2 (fun it ih => parse_hit P (fst ih) (snd ih) = Ok (Some it))
          items (kept_hits hs).
Proof.
  intros Herr Hit. unfold parse_hn_response. rewrite Herr.
  fold (hits_of response). rewrite Hit. cbn [bind]. intros H.
  apply parse_loop_Ok_inv in H. destruct H as (new & -> & HF). exact HF.
Qed.

End ParseFacts.

Section ParseClaims.

Variable P : platform.

Lemma map_snd_kept_hits_from (hs : list value) :
  forall i,
    map snd (filter (fun ih => kept (snd ih)) (enumerate_from i hs))
    = filter kept hs.
Proof.
  induction hs as [|h hs IH]; intros i; simpl; [reflexivity|].
  destruct (kept h); simpl; now rewrite IH.
Qed.

Lemma length_filter_split {A : Type} (f : A -> bool) (l : list A) :
  (List.length (filter f l) + List.length (filter (fun a => negb (f a)) l)
   = List.length l)%nat.
Proof.
  induction l as [|a l IH]; simpl; [reflexivity|].
  destruct (f a); simpl; lia.
Qed.

Lemma Forall2_length_eq {A B : Type} (R : A -> B -> Prop) (l : list A) (l' : list B) :
  Forall2 R l l' -> List.length l = List.length l'.
Proof. induction 1; simpl; congruence. Qed.

Lemma Forall2_weaken {A B : Type} (R R' : A -> B -> Prop) (l : list A) (l' : list B) :
  (forall a b, R a b -> R' a b) -> Forall2 R l l' -> Forall2 R' l l'.
Proof. intros HR. induction 1; constructor; auto. Qed.

Lemma Forall2_map_eq {A B C : Type} (f : A -> C) (g : B -> C) (l : list A) (l' : list B) :
  Forall2 (fun a b => f a = g b) l l' -> map f l = map g l'.
Proof. induction 1; simpl; congruence. Qed.

Lemma tags_of_kept_hits_from (hs : list value) :
  forallb kept hs = true ->
  forall i,
    map (fun ih => "HN" ++ str_of_nat (fst ih + 1))
        (filter (fun ih => kept (snd ih)) (enumerate_from i hs))
    = map (fun k => "HN" ++ str_of_nat k) (seq (i + 1) (List.length hs)).
Proof.
  induction hs as [|h hs IH]; intros Hall i; [reflexivity|].
  cbn [forallb] in Hall. apply andb_prop in Hall. destruct Hall as [Hh Hrest].
  cbn [enumerate_from filter snd List.length seq]. rewrite Hh.
  cbn [map fst]. rewrite (IH Hrest (S i)).
  replace (S i + 1)%nat with (S (i + 1)) by lia. reflexivity.
Qed.

Lemma str_of_nat_inj (n m : nat) : str_of_nat n = str_of_nat m -> n = m.
Proof.
  unfold str_of_nat. intros H.
  assert (Hnn : forall k, Nat.to_uint k <> Decimal.Nil).
  { intros k. rewrite <- (DecimalNat.Unsigned.of_to k) at 1.
    rewrite DecimalNat.Unsigned.to_of. apply DecimalFacts.unorm_nonnil. }
  apply DecimalNat.Unsigned.to_uint_inj.
  pose proof (NilZero.usu _ (Hnn n)) as Hn.
  pose proof (NilZero.usu _ (Hnn m)) as Hm.
  rewrite H in Hn. congruence.
Qed.

Lemma enumerate_from_fst_ge {A : Type} (l : list A) :
  forall i ih, In ih (enumerate_from i l) -> (i <= fst ih)%nat.
Proof.
  induction l as [|a l IH]; intros i ih H; [contradiction|].
  destruct H as [<-|H]; [apply Nat.le_refl|].
  apply IH in H. lia.
Qed.

(** The indices of the kept hits are the first ones exactly when the hits
    they stand at the head of are all kept. *)
Lemma kept_indices_prefix (hs : list value) :
  forall i,
    map fst (filter (fun ih => kept (snd ih)) (enumerate_from i hs))
    = seq i (List.length (filter (fun ih => kept (snd ih)) (enumerate_from i hs)))
    <-> forallb kept
          (firstn (List.length (filter (fun ih => kept (snd ih)) (enumerate_from i hs)))
                  hs) = true.
Proof.
  induction hs as [|h hs IH]; intros i; [now split|].
  cbn [enumerate_from filter snd]. destruct (kept h) eqn:Hk.
  - cbn [List.length map fst seq firstn forallb]. rewrite Hk. cbn [andb].
    rewrite <- IH. split.
    + intros H. now injection H.
    + intros ->. reflexivity.
  - destruct (filter (fun ih => kept (snd ih)) (enumerate_from (S i) hs))
      as [|[j x] rest] eqn:Hf.
    + now split.
    + cbn [List.length map fst seq firstn forallb]. rewrite Hk. cbn [andb].
      split; [|discriminate].
      intros H. injection H as Hj _. exfalso.
      assert (Hin : In (j, x) (enumerate_from (S i) hs)).
      { eapply (proj1 (filter_In _ _ _)). rewrite Hf. now left. }
      apply enumerate_from_fst_ge in Hin. cbn [fst] in Hin. lia.
Qed.

Lemma map_tag_inj (l l' : list nat) :
  map (fun i => "HN" ++ str_of_nat (i + 1)) l
  = map (fun i => "HN" ++ str_of_nat (i + 1)) l' ->
  l = l'.
Proof.
  revert l'. induction l as [|a l IH]; intros [|b l'] H; try discriminate;
    [reflexivity|].
  cbn [map] in H. injection H as Ha H.
  apply str_of_nat_inj in Ha. f_equal; [lia|now apply IH].
Qed.

(** C8.  A response that carries an [error] key is parsed to the empty
    sequence, whatever its [hits] field holds. *)
Theorem parse_error_response_is_empty (response : dict) :
  has_key "error" response = true ->
  parse_hn_response P response = Ok [].
Proof.
  intros H. unfold parse_hn_response. now rewrite H.
Qed.

(** C7.  For a response without an [error] key, the items returned are, in
    order, those of the hits that are not excluded, a hit being excluded
    exactly when both its [title] and its [story_title] are absent or empty;
    so the output is as long as the input less the excluded hits.  The call
    returns exactly when no hit makes the body of the loop raise. *)
Theorem parse_excludes_untitled_hits (response : dict) (hs : list value) :
  has_key "error" response = false ->
  py_iter (hits_of response) = Ok hs ->
  (forallb (processable P) hs = true
   <-> exists items, parse_hn_response P response = Ok items)
  /\ forall items,
       parse_hn_response P response = Ok items ->
       map title items = map resolved_title (filter kept hs)
       /\ Forall2 (fun it ih => parse_hit P (fst ih) (snd ih) = Ok (Some it))
                  items (kept_hits hs)
       /\ (List.length items
           = List.length hs - List.length (filter excluded hs))%nat.
Proof.
  intros Herr Hit. split; [now apply parse_returns_iff|].
  intros items Hret.
  pose proof (parse_Ok_inv P response hs items Herr Hit Hret) as HF.
  split; [|split; [exact HF|]].
  - rewrite <- (map_snd_kept_hits_from hs 0), map_map.
    apply Forall2_map_eq.
    eapply Forall2_weaken; [|exact HF].
    intros it ih H. now apply parse_hit_Some_inv in H.
  - apply Forall2_length_eq in HF. rewrite HF.
    unfold kept_hits, enumerate.
    rewrite <- (length_map snd), map_snd_kept_hits_from.
    pose proof (length_filter_split excluded hs) as Hsplit.
    unfold kept. lia.
Qed.

(** C1 (amended).  For a response without an [error] key, each item
    returned carries the tag ["HN<n>"] where [n] is the 1-based position of
    its hit among the input hits; the items keep the order of the hits.  The
    tags are ["HN1"], ["HN2"], ... in output order exactly when no skipped
    hit comes before a kept one, that is when the hits at the head of the
    input, as many as there are items, are all kept; in particular when no
    hit is skipped. *)
Theorem parse_ids_are_hit_positions (response : dict) (hs : list value) :
  has_key "error" response = false ->
  py_iter (hits_of response) = Ok hs ->
  (forallb (processable P) hs = true ->
   exists items, parse_hn_response P response = Ok items)
  /\ forall items,
       parse_hn_response P response = Ok items ->
       map id items
       = map (fun ih => "HN" ++ str_of_nat (fst ih + 1)) (kept_hits hs)
       /\ (forallb kept hs = true ->
           map id items
           = map (fun k => "HN" ++ str_of_nat k) (seq 1 (List.length hs)))
       /\ (map id items
           = map (fun k => "HN" ++ str_of_nat k) (seq 1 (List.length items))
           <-> forallb kept (firstn (List.length items) hs) = true).
Proof.
  intros Herr Hit. split; [now apply parse_returns_iff|].
  intros items Hret.
  pose proof (parse_Ok_inv P response hs items Herr Hit Hret) as HF.
  assert (Hids : map id items
                 = map (fun ih => "HN" ++ str_of_nat (fst ih + 1)) (kept_hits hs)).
  { apply Forall2_map_eq. eapply Forall2_weaken; [|exact HF].
    intros it ih H. now apply parse_hit_Some_inv in H. }
  split; [exact Hids|]. split.
  - intros Hall. rewrite Hids. unfold kept_hits, enumerate.
    now apply tags_of_kept_hits_from.
  - apply Forall2_length_eq in HF. rewrite Hids, HF.
    unfold kept_hits, enumerate.
    rewrite <- (kept_indices_prefix hs 0).
    rewrite <- seq_shift, !map_map.
    rewrite <- (map_map fst (fun i => "HN" ++ str_of_nat (i + 1))).
    split.
    + intros H. apply map_tag_inj.
      rewrite H. apply map_ext. intros k.
      now replace (k + 1)%nat with (S k) by lia.
    + intros ->. apply map_ext. intros k.
      now replace (k + 1)%nat with (S k) by lia.
Qed.

(** C3 (amended).  For every hit emitted, [why_relevant] is the fixed
    caption around the first 50 characters of the hit's own [title] when
    that is a string, and around the word [topic] when the hit has no
    [title] key; [story_title] is not used.  A [title] that is a non-empty
    string is also the title of the item. *)
Theorem caption_embeds_title_field (response : dict) (hs : list value) :
  has_key "error" response = false ->
  py_iter (hits_of response) = Ok hs ->
  (forallb (processable P) hs = true ->
   exists items, parse_hn_response P response = Ok items)
  /\ forall items,
       parse_hn_response P response = Ok items ->
       Forall2
         (fun it ih =>
            forall d, snd ih = VDict d ->
              match lookup "title" d with
              | None =>
                  why_relevant it = "Hacker News discussion about topic"
              | Some (VStr s) =>
                  why_relevant it
                  = "Hacker News discussion about " ++ str_take 50 s
                  /\ (s <> "" -> title it = VStr s)
              | Some _ => True
              end)
         items (kept_hits hs).
Proof.
  intros Herr Hit. split; [now apply parse_returns_iff|].
  intros items Hret.
  pose proof (parse_Ok_inv P response hs items Herr Hit Hret) as HF.
  eapply Forall2_weaken; [|exact HF].
  intros it [i hit] H d Hd. simpl in *. subst hit.
  apply parse_hit_Some_inv in H. destruct H as (_ & _ & Htitle & Hcap).
  unfold caption_text in Hcap.
  destruct (lookup "title" d) as [[ | | |s| | ]|] eqn:Hl; try exact I.
  - split; [apply Hcap; reflexivity|].
    intros Hs. rewrite Htitle. unfold resolved_title, dict_get, py_or.
    rewrite Hl. simpl.
    destruct (s =? "")%string eqn:E; [|reflexivity].
    apply String.eqb_eq in E. contradiction.
  - apply Hcap. reflexivity.
Qed.

(** C2 (the defect).  A hit that is kept and whose [created_at_i] is a
    non-empty text makes the call raise [TypeError], on every platform and
    whatever follows it, once the hits before it have been processed:
    [fromtimestamp] rejects the text, and the handler of the date step
    catches [ValueError] and [OSError] only. *)
Theorem parse_raises_on_text_timestamp
    (response : dict) (pre post : list value) (d : dict) (s : string) :
  has_key "error" response = false ->
  hits_of response = VList (pre ++ VDict d :: post)%list ->
  forallb (processable P) pre = true ->
  kept (VDict d) = true ->
  dict_get d "created_at_i" VNone = VStr s ->
  s <> "" ->
  parse_hn_response P response = Raise TypeError.
Proof.
  intros Herr Hhits Hpre Hk Hc Hs. unfold parse_hn_response. rewrite Herr.
  fold (hits_of response). rewrite Hhits. cbn [py_iter bind]. unfold enumerate.
  apply parse_loop_raises; [exact Hpre|].
  intros j. now apply parse_hit_text_timestamp with (s := s).
Qed.

End ParseClaims.

(** The same on the reference platform for an integer beyond [time_t]:
    [OverflowError] is not caught either. *)
Lemma parse_raises_on_huge_timestamp :
  parse_hn_response utc
    [ ("hits", VList [ VDict [ ("title", VStr "A");
                               ("objectID", VStr "1");
                               ("created_at_i", VInt (10 ^ 20)) ] ]) ]
  = Raise OverflowError.
Proof. reflexivity. Qed.

(** An out-of-range timestamp that the platform rejects with [ValueError]
    leaves the date absent and the item in place. *)
Lemma parse_keeps_item_without_date :
  fmap (map (fun it => (id it, title it, date it)))
    (parse_hn_response utc
       [ ("hits", VList [ VDict [ ("title", VStr "A");
                                  ("objectID", VStr "1");
                                  ("created_at_i", VInt (10 ^ 12)) ] ]) ])
  = Ok [ ("HN1", VStr "A", None) ].
Proof. reflexivity. Qed.

(* ================================================================== *)
(** ** Properties of [search_hn] *)
(* ================================================================== *)

Section SearchClaims.

Variable P : platform.
Variable http_get : string -> Z -> http_outcome.

Lemma lookup_depth (depth : string) :
  snd (match lookup depth DEPTH_CONFIG with Some p => p | None => (20, 30) end)
  = page_size depth.
Proof.
  unfold page_size. simpl.
  destruct (depth =? "quick")%string; [reflexivity|].
  destruct (depth =? "default")%string; [reflexivity|].
  destruct (depth =? "deep")%string; reflexivity.
Qed.

Lemma search_url_eq (topic from_date to_date depth : string) (from_ts to_ts : Z) :
  _date_to_timestamp P from_date = Ok from_ts ->
  _date_to_timestamp P to_date = Ok to_ts ->
  search_url P topic from_date to_date depth
  = Ok (HN_API_URL ++ "?"
        ++ urlencode (search_params topic from_ts (to_ts + 86400) (page_size depth))).
Proof.
  intros Hf Ht. unfold search_url. rewrite <- lookup_depth.
  change (depth_index "default") with (@Ok (Z * Z) (20, 30)). cbn [bind].
  destruct (match lookup depth DEPTH_CONFIG with Some p => p | None => (20, 30) end)
    as [min_results max_results].
  rewrite Hf, Ht. reflexivity.
Qed.

Lemma search_url_unknown_depth (topic from_date to_date depth : string) :
  depth <> "quick" -> depth <> "deep" ->
  search_url P topic from_date to_date depth
  = search_url P topic from_date to_date "default".
Proof.
  intros Hq Hd. unfold search_url.
  change (depth_index "default") with (@Ok (Z * Z) (20, 30)). cbn [bind].
  replace (match lookup depth DEPTH_CONFIG with Some p => p | None => (20, 30) end)
    with (match lookup "default" DEPTH_CONFIG with
          | Some p => p | None => (20, 30) end);
    [reflexivity|].
  apply String.eqb_neq in Hq, Hd. unfold DEPTH_CONFIG, lookup.
  rewrite Hq, Hd. destruct (depth =? "default")%string; reflexivity.
Qed.

(** C9.  A [mock_response] that is not [None] is returned as it is, without
    any request or output, whatever the other arguments are. *)
Theorem search_returns_mock_response
    (topic from_date to_date depth : string) (mock_response : value) :
  mock_response <> VNone ->
  search_hn P http_get topic from_date to_date depth mock_response
  = (Ok mock_response, []).
Proof.
  intros H. destruct mock_response; try reflexivity. contradiction.
Qed.

(** C5.  When the GET raises a transport or protocol failure, [search_hn]
    returns the result [{error: str(e), hits: []}] and writes one line to the
    error stream; nothing is raised to the caller. *)
Theorem search_failure_returns_error_result
    (topic from_date to_date depth url : string) (e : foreign_exception) :
  search_url P topic from_date to_date depth = Ok url ->
  http_get url 30 = HttpRaise e ->
  is_failure e = true ->
  search_hn P http_get topic from_date to_date depth VNone
  = (Ok (VDict [ ("error", VStr (exc_str e)); ("hits", VList []) ]),
     [ HttpGet url 30; StderrWrite (failure_log e); StderrFlush ]).
Proof.
  intros Hurl Hget Hfail. unfold search_hn, is_failure, failure_log in *.
  rewrite Hurl, Hget.
  destruct (exc_is_HTTPError e); [reflexivity|].
  simpl in Hfail. rewrite Hfail. reflexivity.
Qed.

(** The events of a search that reaches the [try]: one GET, with a timeout
    of 30 seconds, for the URL computed. *)
Lemma search_requests_url (topic from_date to_date depth url : string) :
  search_url P topic from_date to_date depth = Ok url ->
  requests (snd (search_hn P http_get topic from_date to_date depth VNone))
  = [(url, 30)].
Proof.
  intros Hurl. unfold search_hn. rewrite Hurl.
  destruct (http_get url 30) as [response|e]; [reflexivity|].
  destruct (exc_is_HTTPError e); [reflexivity|].
  destruct (exc_is_Exception e); reflexivity.
Qed.

Lemma append_assoc (a b c : string) : (a ++ b) ++ c = a ++ (b ++ c).
Proof. induction a as [|x a IH]; simpl; [reflexivity|]. now rewrite IH. Qed.

Lemma quote_plus_app (a b : string) :
  quote_plus (a ++ b) = quote_plus a ++ quote_plus b.
Proof.
  induction a as [|x a IH]; simpl; [reflexivity|].
  now rewrite IH, append_assoc.
Qed.

Lemma quote_plus_uint (u : Decimal.uint) :
  quote_plus (NilEmpty.string_of_uint u) = NilEmpty.string_of_uint u.
Proof. induction u; simpl; try rewrite IHu; reflexivity. Qed.

Lemma quote_plus_str_of_Z (n : Z) : quote_plus (str_of_Z n) = str_of_Z n.
Proof.
  unfold str_of_Z, NilZero.string_of_int, NilZero.string_of_uint.
  destruct (Z.to_int n) as [u|u]; destruct u;
    try reflexivity; rewrite <- quote_plus_uint at 2; reflexivity.
Qed.

Lemma urlencode_search_params (topic : string) (from_ts to_ts n : Z) :
  HN_API_URL ++ "?" ++ urlencode (search_params topic from_ts to_ts n)
  = search_request topic from_ts to_ts (str_of_Z n).
Proof.
  unfold urlencode, search_params, search_request, HN_API_URL.
  cbn [map fst snd String.concat py_str py_repr].
  change (quote_plus "query") with "query".
  change (quote_plus "tags") with "tags".
  change (quote_plus "story") with "story".
  change (quote_plus "numericFilters") with "numericFilters".
  change (quote_plus "hitsPerPage") with "hitsPerPage".
  rewrite !quote_plus_app, !quote_plus_str_of_Z.
  change (quote_plus "created_at_i>=") with "created_at_i%3E%3D".
  change (quote_plus ",created_at_i<=") with "%2Ccreated_at_i%3C%3D".
  repeat (rewrite !append_assoc; cbn [append]).
  reflexivity.
Qed.

(** C6.  The page size requested is 12 for depth [quick], 30 for [default]
    and 70 for [deep]: the one GET of a search is for the URL whose
    [hitsPerPage] parameter is that number; and with any other depth the
    search is the search of depth [default]. *)
Theorem search_page_size_of_depth (topic from_date to_date : string) :
  (forall from_ts to_ts,
     _date_to_timestamp P from_date = Ok from_ts ->
     _date_to_timestamp P to_date = Ok to_ts ->
     let request := search_request topic from_ts (to_ts + 86400) in
     requests (snd (search_hn P http_get topic from_date to_date "quick" VNone))
     = [(request "12", 30)]
     /\ requests (snd (search_hn P http_get topic from_date to_date "default" VNone))
        = [(request "30", 30)]
     /\ requests (snd (search_hn P http_get topic from_date to_date "deep" VNone))
        = [(request "70", 30)])
  /\ (forall depth mock_response,
        depth <> "quick" -> depth <> "default" -> depth <> "deep" ->
        search_hn P http_get topic from_date to_date depth mock_response
        = search_hn P http_get topic from_date to_date "default" mock_response).
Proof.
  split.
  - intros from_ts to_ts Hf Ht request.
    assert (Hurl : forall depth,
               search_url P topic from_date to_date depth
               = Ok (request (str_of_Z (page_size depth)))).
    { intros depth. rewrite (search_url_eq topic _ _ depth _ _ Hf Ht).
      now rewrite urlencode_search_params. }
    split; [|split].
    + apply search_requests_url. apply (Hurl "quick").
    + apply search_requests_url. apply (Hurl "default").
    + apply search_requests_url. apply (Hurl "deep").
  - intros depth mock_response Hq _ Hd. unfold search_hn.
    now rewrite (search_url_unknown_depth topic from_date to_date depth Hq Hd).
Qed.

End SearchClaims.

(* ================================================================== *)
(** ** The date format and the arguments of [search_hn] *)
(* ================================================================== *)

Section DateFacts.

Lemma in_cls (lo hi : ascii) (s a r : string) :
  In (a, r) (cls lo hi s) ->
  exists c, s = String c r /\ a = String c "" /\ char_in lo hi c = true.
Proof.
  unfold cls. destruct s as [|c s]; [intros []|].
  destruct (char_in lo hi c) eqn:E; [|intros []].
  intros [H|[]]. injection H as <- <-. exists c. auto.
Qed.

Lemma in_cat (p q : pattern) (s a r : string) :
  In (a, r) (cat p q s) ->
  exists a1 r1 a2,
    In (a1, r1) (p s) /\ In (a2, r) (q r1) /\ a = a1 ++ a2.
Proof.
  unfold cat. intros H. apply in_flat_map in H. destruct H as ([a1 r1] & H1 & H).
  apply in_map_iff in H. destruct H as ([a2 r2] & Heq & H2).
  simpl in Heq. injection Heq as <- <-. exists a1, r1, a2. auto.
Qed.

Lemma in_alt (p q : pattern) (s : string) (x : string * string) :
  In x (alt p q s) -> In x (p s) \/ In x (q s).
Proof. unfold alt. apply in_app_or. Qed.

Lemma hd_error_In {A : Type} (l : list A) (x : A) : hd_error l = Some x -> In x l.
Proof. destruct l; simpl; [discriminate|]. intros [= ->]. now left. Qed.

Lemma char_in_same (c x : ascii) : char_in c c x = true -> x = c.
Proof.
  unfold char_in. intros H. apply andb_prop in H. destruct H as [H1 H2].
  apply N.leb_le in H1, H2.
  rewrite <- (ascii_N_embedding x), <- (ascii_N_embedding c).
  f_equal. lia.
Qed.

Lemma char_in_digit (lo hi c : ascii) :
  char_in lo hi c = true ->
  (48 <=? N_of_ascii lo)%N = true -> (N_of_ascii hi <=? 57)%N = true ->
  is_digit c = true.
Proof.
  unfold is_digit, char_in. intros H Hlo Hhi.
  apply andb_prop in H. destruct H as [H1 H2].
  apply N.leb_le in H1, H2, Hlo, Hhi.
  apply andb_true_intro. split; apply N.leb_le; simpl; lia.
Qed.

Lemma digit_not_dash (c : ascii) : is_digit c = true -> Ascii.eqb c "-" = false.
Proof.
  intros H. destruct (Ascii.eqb_spec c "-") as [->|]; [discriminate|reflexivity].
Qed.

(** The texts of the groups [m] and [d]. *)
Lemma in_re_Y (s a r : string) :
  In (a, r) (re_Y s) ->
  exists c1 c2 c3 c4,
    s = String c1 (String c2 (String c3 (String c4 r)))
    /\ is_digit c1 && is_digit c2 && is_digit c3 && is_digit c4 = true.
Proof.
  unfold re_Y, digit. intros H.
  apply in_cat in H. destruct H as (a1 & r1 & a2 & H1 & H & _).
  apply in_cat in H. destruct H as (a3 & r2 & a4 & H2 & H & _).
  apply in_cat in H. destruct H as (a5 & r3 & a6 & H3 & H4 & _).
  apply in_cls in H1, H2, H3, H4.
  destruct H1 as (c1 & -> & _ & E1). destruct H2 as (c2 & -> & _ & E2).
  destruct H3 as (c3 & -> & _ & E3). destruct H4 as (c4 & -> & _ & E4).
  exists c1, c2, c3, c4. split; [reflexivity|].
  unfold is_digit. now rewrite E1, E2, E3, E4.
Qed.

Lemma in_re_m (s a r : string) :
  In (a, r) (re_m s) ->
  (exists c, s = String c r /\ is_digit c = true)
  \/ (exists c c', s = String c (String c' r)
                  /\ is_digit c = true /\ is_digit c' = true).
Proof.
  unfold re_m, chr. intros H.
  repeat (apply in_alt in H; destruct H as [H|H]).
  - right. apply in_cat in H. destruct H as (a1 & r1 & a2 & H1 & H2 & _).
    apply in_cls in H1, H2.
    destruct H1 as (c & -> & _ & E1). destruct H2 as (c' & -> & _ & E2).
    exists c, c'. split; [reflexivity|].
    split; eapply char_in_digit; eauto.
  - right. apply in_cat in H. destruct H as (a1 & r1 & a2 & H1 & H2 & _).
    apply in_cls in H1, H2.
    destruct H1 as (c & -> & _ & E1). destruct H2 as (c' & -> & _ & E2).
    exists c, c'. split; [reflexivity|].
    split; eapply char_in_digit; eauto.
  - left. apply in_cls in H. destruct H as (c & -> & _ & E).
    exists c. split; [reflexivity|]. eapply char_in_digit; eauto.
Qed.

Lemma in_re_d (s a r : string) :
  In (a, r) (re_d s) ->
  (exists c, s = String c r /\ is_digit c = true)
  \/ (exists c c', s = String c (String c' r)
                  /\ (is_digit c || Ascii.eqb c " ") = true
                  /\ is_digit c' = true).
Proof.
  unfold re_d, chr, digit. intros H.
  repeat (apply in_alt in H; destruct H as [H|H]);
    try (apply in_cat in H; destruct H as (a1 & r1 & a2 & H1 & H2 & _);
         apply in_cls in H1, H2;
         destruct H1 as (c & -> & _ & E1); destruct H2 as (c' & -> & _ & E2);
         right; exists c, c'; split; [reflexivity|]).
  - split; [apply orb_true_intro; left|]; eapply char_in_digit; eauto.
  - split; [apply orb_true_intro; left|]; eapply char_in_digit; eauto.
  - split; [apply orb_true_intro; left|]; eapply char_in_digit; eauto.
  - left. apply in_cls in H. destruct H as (c & -> & _ & E).
    exists c. split; [reflexivity|]. eapply char_in_digit; eauto.
  - split; [|eapply char_in_digit; eauto].
    apply char_in_same in E1. subst c. reflexivity.
Qed.

(** Whatever [strptime] accepts for [%Y-%m-%d] has the form [Y_M_D]. *)
Lemma strptime_accepts_form (s : string) (r : Z * Z * Z) :
  strptime_ymd s = Ok r -> Y_M_D s = true.
Proof.
  unfold strptime_ymd.
  destruct (match_ymd s) as [[[[y m] d] rest]|] eqn:E; [|discriminate].
  destruct (rest =? "")%string eqn:Hrest; [|discriminate].
  apply String.eqb_eq in Hrest. subst rest. intros _.
  unfold match_ymd in E. apply hd_error_In in E.
  apply in_flat_map in E. destruct E as ([y' r1] & HY & E).
  apply in_flat_map in E. destruct E as ([d1 r2] & Hd1 & E).
  apply in_flat_map in E. destruct E as ([m' r3] & Hm & E).
  apply in_flat_map in E. destruct E as ([d2 r4] & Hd2 & E).
  apply in_map_iff in E. destruct E as ([d' r5] & Heq & Hd).
  simpl in *. injection Heq as -> -> -> ->.
  apply in_re_Y in HY. destruct HY as (c1 & c2 & c3 & c4 & -> & HY).
  apply in_cls in Hd1. destruct Hd1 as (x1 & -> & _ & Hx1).
  apply char_in_same in Hx1. subst x1.
  apply in_cls in Hd2. destruct Hd2 as (x2 & -> & _ & Hx2).
  apply char_in_same in Hx2. subst x2.
  unfold Y_M_D. cbn [list_ascii_of_string]. rewrite HY. cbn [andb Ascii.eqb Bool.eqb].
  apply in_re_m in Hm. apply in_re_d in Hd.
  destruct Hm as [(a & -> & Ha)|(a & b & -> & Ha & Hb)];
    destruct Hd as [(x & -> & Hx)|(x & z & -> & Hx & Hz)];
    cbn [list_ascii_of_string month_day_text day_text Ascii.eqb Bool.eqb];
    rewrite ?(digit_not_dash _ Hb), ?Ha, ?Hb, ?Hx, ?Hz;
    reflexivity.
Qed.

Lemma strptime_rejects (s : string) :
  Y_M_D s = false -> strptime_ymd s = Raise ValueError.
Proof.
  intros H. destruct (strptime_ymd s) as [r|e] eqn:E.
  - apply strptime_accepts_form in E. congruence.
  - revert E. unfold strptime_ymd.
    destruct (match_ymd s) as [[[[y m] d] rest]|]; [|congruence].
    destruct (negb (rest =? ""))%string; [congruence|].
    destruct (valid_date _ _ _); congruence.
Qed.

End DateFacts.

Section DateClaims.

Variable P : platform.
Variable http_get : string -> Z -> http_outcome.

Lemma date_to_timestamp_rejects (s : string) :
  Y_M_D s = false -> _date_to_timestamp P s = Raise ValueError.
Proof.
  intros H. unfold _date_to_timestamp. now rewrite (strptime_rejects s H).
Qed.

Lemma date_to_timestamp_form (s : string) (ts : Z) :
  _date_to_timestamp P s = Ok ts -> Y_M_D s = true.
Proof.
  unfold _date_to_timestamp. intros H.
  apply bind_Ok_inv in H. destruct H as (r & Hr & _).
  now apply strptime_accepts_form in Hr.
Qed.

(** C10 (amended).  Without a mock response, the dates are converted before
    the [try]: when [from_date] or [to_date], a text of code points below
    256 as all texts here, is not a four-digit year, a
    dash, a month of one or two digits, a dash and a day of one or two digits
    (or a space and a digit), [search_hn] raises to the caller, with no
    request and no output, instead of returning an error result; the
    exception is the [ValueError] of [strptime], unless the conversion of a
    well-formed [from_date] failed first. *)
Theorem search_raises_on_malformed_date
    (topic from_date to_date depth : string) :
  Y_M_D from_date = false \/ Y_M_D to_date = false ->
  exists e,
    search_hn P http_get topic from_date to_date depth VNone = (Raise e, [])
    /\ (Y_M_D from_date = false \/ (exists ts, _date_to_timestamp P from_date = Ok ts)
        -> e = ValueError).
Proof.
  intros H. unfold search_hn, search_url.
  change (depth_index "default") with (@Ok (Z * Z) (20, 30)). cbn [bind].
  destruct (match lookup depth DEPTH_CONFIG with Some p => p | None => (20, 30) end)
    as [min_results max_results].
  destruct (_date_to_timestamp P from_date) as [from_ts|e] eqn:Hfrom.
  - destruct H as [H|H].
    + apply date_to_timestamp_form in Hfrom. congruence.
    + rewrite (date_to_timestamp_rejects to_date H). cbn [bind].
      exists ValueError. split; reflexivity.
  - cbn [bind]. exists e. split; [reflexivity|].
    intros [Hbad|[ts Hts]]; [|discriminate].
    rewrite (date_to_timestamp_rejects from_date Hbad) in Hfrom. congruence.
Qed.

End DateClaims.

(* ================================================================== *)
(** ** Properties of the date step of [parse_hn_response] *)
(* ================================================================== *)

Section DateStepFacts.

Variable P : platform.

Lemma date_absent_when_timestamp_missing (c : value) :
  truthy c = false -> date_step P c = Ok None.
Proof. intros H. unfold date_step. now rewrite H. Qed.

Lemma date_absent_when_year_out_of_range (n : Z) :
  local_date_of_timestamp P n = inr TimeValueError
  \/ local_date_of_timestamp P n = inr TimeOSError ->
  date_step P (VInt n) = Ok None.
Proof.
  intros H. unfold date_step. simpl.
  destruct (negb (n =? 0)%Z); [|reflexivity].
  destruct H as [-> | ->]; reflexivity.
Qed.

Lemma date_step_overflow_raises (n : Z) :
  n <> 0 ->
  local_date_of_timestamp P n = inr TimeOverflowError ->
  date_step P (VInt n) = Raise OverflowError.
Proof.
  intros Hn H. unfold date_step. simpl.
  apply Z.eqb_neq in Hn. rewrite Hn, H. reflexivity.
Qed.

End DateStepFacts.

(* ================================================================== *)
(** ** Properties of the spinner *)
(* ================================================================== *)

Section SpinnerClaims.

Import UI.

Lemma written_app (out out' : list UI.event) :
  written (out ++ out') = (written out ++ written out')%list.
Proof. unfold written. apply flat_map_app. Qed.

Lemma run_cons (tty : bool) (self : Spinner) (c : call) (cs : list call) :
  run tty self (c :: cs)
  = (fst (run tty (fst (perform tty self c)) cs),
     (snd (perform tty self c) ++ snd (run tty (fst (perform tty self c)) cs))%list).
Proof.
  cbn [run]. destruct (perform tty self c) as [self' out]. cbn [fst snd].
  destruct (run tty self' cs) as [self'' out']. reflexivity.
Qed.

(** Once the static line is shown, updates print nothing. *)
Lemma updates_silent_after_static (ms : list string) :
  forall self,
    shown_static self = true ->
    written (snd (run false self (map Update ms))) = [].
Proof.
  induction ms as [|m ms IH]; intros self H; [reflexivity|].
  cbn [map]. rewrite run_cons. cbn [snd fst perform]. rewrite written_app.
  rewrite IH by exact H.
  unfold update. cbn [snd]. rewrite H. reflexivity.
Qed.

(** Before it, each update prints its message. *)
Lemma updates_print_before_static (ms : list string) :
  forall self,
    shown_static self = false ->
    written (snd (run false self (map Update ms)))
    = map (fun m => "⏳ " ++ m ++ LF) ms.
Proof.
  induction ms as [|m ms IH]; intros self H; [reflexivity|].
  cbn [map]. rewrite run_cons. cbn [snd fst perform]. rewrite written_app.
  rewrite IH by exact H.
  unfold update. cbn [snd]. rewrite H. reflexivity.
Qed.

(** C4 (amended).  In non-interactive mode, [update(message)] replaces
    the message, and prints it, once, only while the static line of the
    spinner has not been shown: on a new spinner each update is printed
    once, and after [start()] none is. *)
Theorem update_prints_only_before_start
    (self : Spinner) (new_message : string)
    (message0 color0 : string) (ms : list string) :
  message (fst (update false self new_message)) = new_message
  /\ written (snd (update false self new_message))
     = (if shown_static self then [] else ["⏳ " ++ new_message ++ LF])
  /\ written (snd (run false (fst (start false self)) (map Update ms))) = []
  /\ written (snd (run false (__init__ message0 color0) (map Update ms)))
     = map (fun m => "⏳ " ++ m ++ LF) ms.
Proof.
  split; [reflexivity|]. split; [|split].
  - unfold update. cbn [snd negb andb]. destruct (shown_static self); reflexivity.
  - apply updates_silent_after_static.
    unfold start. destruct (shown_static self); reflexivity.
  - apply updates_print_before_static. reflexivity.
Qed.

End SpinnerClaims.

(* ================================================================== *)
(** ** Instances and counterexamples *)
(* ================================================================== *)

(** C1: the items of the sample are tagged with the positions 1 and 3 of
    their hits, so the second item is not ["HN2"]. *)
Lemma parse_ids_skip_excluded_positions :
  has_key "error" response_sample = false
  /\ fmap (map id) (parse_hn_response utc response_sample) = Ok ["HN1"; "HN3"]
  /\ nth_error ["HN1"; "HN3"] 1 <> Some "HN2".
Proof. repeat split. discriminate. Qed.

(** C3: the third hit of the sample has a [story_title] only; the title of
    its item is that text, and its caption is about [topic]. *)
Lemma caption_ignores_story_title :
  fmap (map (fun it => (title it, why_relevant it)))
       (parse_hn_response utc response_sample)
  = Ok [ (VStr "A", "Hacker News discussion about A");
         (VStr "B", "Hacker News discussion about topic") ]
  /\ "Hacker News discussion about topic" <> "Hacker News discussion about B".
Proof. split; [reflexivity|discriminate]. Qed.

(** C4: after [start()] in non-interactive mode, an update prints
    nothing. *)
Lemma update_after_start_prints_nothing :
  UI.written
    (snd (UI.update false
            (fst (UI.start false (UI.__init__ "Working" UI.Colors.CYAN)))
            "Fetching"))
  = []
  /\ UI.written
       (snd (UI.run false (UI.__init__ "Working" UI.Colors.CYAN)
               [UI.Start; UI.Update "Fetching"; UI.Update "Parsing"]))
     = [ "⏳ Working" ++ UI.LF ].
Proof. split; reflexivity. Qed.

(** C10: the date [2024-1-5] is not of the form YYYY-MM-DD, and a search
    from it goes through: [strptime] does not require the leading zeros. *)
Lemma search_accepts_unpadded_date :
  YYYY_MM_DD "2024-1-5" = false
  /\ search_hn utc http_no_hits "rust" "2024-1-5" "2024-01-31" "default" VNone
     = (Ok (VDict [ ("hits", VList []) ]),
        [ HttpGet "https://hn.algolia.com/api/v1/search_by_date?query=rust&tags=story&numericFilters=created_at_i%3E%3D1704412800%2Ccreated_at_i%3C%3D1706745600&hitsPerPage=30" 30 ]).
Proof. split; reflexivity. Qed.

Lemma parse_excludes_untitled_hits_witness :
  (has_key "error" response_sample = false
   /\ py_iter (hits_of response_sample) = Ok hits_sample)
  /\ exists items,
       parse_hn_response utc response_sample = Ok items
       /\ map title items = [VStr "A"; VStr "B"]
       /\ (List.length items = 3 - 1)%nat.
Proof.
  split; [split; reflexivity|].
  destruct (parse_excludes_untitled_hits utc response_sample hits_sample
              eq_refl eq_refl) as [Hret Hprop].
  destruct (proj1 Hret eq_refl) as [items Hitems].
  exists items. split; [exact Hitems|].
  destruct (Hprop items Hitems) as (Ht & _ & Hl). split; assumption.
Defined.

Lemma parse_ids_are_hit_positions_witness :
  (has_key "error" response_sample = false
   /\ py_iter (hits_of response_sample) = Ok hits_sample)
  /\ exists items,
       parse_hn_response utc response_sample = Ok items
       /\ map id items = ["HN1"; "HN3"].
Proof.
  split; [split; reflexivity|].
  destruct (parse_ids_are_hit_positions utc response_sample hits_sample
              eq_refl eq_refl) as [Hret Hprop].
  destruct (Hret eq_refl) as [items Hitems].
  exists items. split; [exact Hitems|].
  destruct (Hprop items Hitems) as (Hids & _). exact Hids.
Defined.

Lemma caption_embeds_title_field_witness :
  (has_key "error" response_sample = false
   /\ py_iter (hits_of response_sample) = Ok hits_sample)
  /\ exists items,
       parse_hn_response utc response_sample = Ok items
       /\ Forall2
            (fun it ih =>
               forall d, snd ih = VDict d ->
                 match lookup "title" d with
                 | None =>
                     why_relevant it = "Hacker News discussion about topic"
                 | Some (VStr s) =>
                     why_relevant it
                     = "Hacker News discussion about " ++ str_take 50 s
                     /\ (s <> "" -> title it = VStr s)
                 | Some _ => True
                 end)
            items (kept_hits hits_sample).
Proof.
  split; [split; reflexivity|].
  destruct (caption_embeds_title_field utc response_sample hits_sample
              eq_refl eq_refl) as [Hret Hprop].
  destruct (Hret eq_refl) as [items Hitems].
  exists items. split; [exact Hitems|]. exact (Hprop items Hitems).
Defined.

Lemma parse_raises_on_text_timestamp_witness :
  (has_key "error" response_text_timestamp = false
   /\ hits_of response_text_timestamp = VList ([] ++ VDict hit_text_timestamp :: [])%list
   /\ forallb (processable utc) [] = true
   /\ kept (VDict hit_text_timestamp) = true
   /\ dict_get hit_text_timestamp "created_at_i" VNone = VStr "abc"
   /\ "abc" <> "")
  /\ parse_hn_response utc response_text_timestamp = Raise TypeError.
Proof.
  split; [repeat split; discriminate|].
  apply (parse_raises_on_text_timestamp utc response_text_timestamp
           [] [] hit_text_timestamp "abc"); try reflexivity.
  discriminate.
Defined.

Lemma parse_error_response_is_empty_witness :
  has_key "error" response_failed = true
  /\ parse_hn_response utc response_failed = Ok [].
Proof.
  split; [reflexivity|].
  apply (parse_error_response_is_empty utc response_failed). reflexivity.
Defined.

Lemma search_returns_mock_response_witness :
  VDict response_sample <> VNone
  /\ search_hn utc http_timeout "rust" "2024-01-01" "2024-01-31" "deep"
       (VDict response_sample)
     = (Ok (VDict response_sample), []).
Proof.
  split; [discriminate|].
  apply (search_returns_mock_response utc http_timeout). discriminate.
Defined.

Lemma search_failure_returns_error_result_witness :
  (search_url utc "rust" "2024-01-01" "2024-01-31" "quick"
   = Ok (search_request "rust" 1704067200 1706745600 "12")
   /\ http_timeout (search_request "rust" 1704067200 1706745600 "12") 30
      = HttpRaise timed_out
   /\ is_failure timed_out = true)
  /\ search_hn utc http_timeout "rust" "2024-01-01" "2024-01-31" "quick" VNone
     = (Ok (VDict [ ("error", VStr "timed out"); ("hits", VList []) ]),
        [ HttpGet (search_request "rust" 1704067200 1706745600 "12") 30;
          StderrWrite (failure_log timed_out);
          StderrFlush ]).
Proof.
  split; [repeat split|].
  apply (search_failure_returns_error_result utc http_timeout
           "rust" "2024-01-01" "2024-01-31" "quick"
           (search_request "rust" 1704067200 1706745600 "12") timed_out);
    reflexivity.
Defined.

Lemma search_page_size_of_depth_witness :
  (_date_to_timestamp utc "2024-01-01" = Ok 1704067200
   /\ _date_to_timestamp utc "2024-01-31" = Ok 1706659200
   /\ "bogus-depth" <> "quick" /\ "bogus-depth" <> "default"
   /\ "bogus-depth" <> "deep")
  /\ requests (snd (search_hn utc http_no_hits "rust" "2024-01-01" "2024-01-31"
                             "quick" VNone))
     = [(search_request "rust" 1704067200 1706745600 "12", 30)]
  /\ search_hn utc http_no_hits "rust" "2024-01-01" "2024-01-31" "bogus-depth" VNone
     = search_hn utc http_no_hits "rust" "2024-01-01" "2024-01-31" "default" VNone.
Proof.
  split; [repeat split; discriminate|].
  destruct (search_page_size_of_depth utc http_no_hits
              "rust" "2024-01-01" "2024-01-31") as [Hsize Hother].
  split.
  - exact (proj1 (Hsize 1704067200 1706659200 eq_refl eq_refl)).
  - apply Hother; discriminate.
Defined.

Lemma search_raises_on_malformed_date_witness :
  (Y_M_D "2024/01/01" = false \/ Y_M_D "2024-01-31" = false)
  /\ exists e,
       search_hn utc http_no_hits "rust" "2024/01/01" "2024-01-31" "default" VNone
       = (Raise e, [])
       /\ (Y_M_D "2024/01/01" = false
           \/ (exists ts, _date_to_timestamp utc "2024/01/01" = Ok ts)
           -> e = ValueError).
Proof.
  split; [left; reflexivity|].
  apply (search_raises_on_malformed_date utc http_no_hits).
  left. reflexivity.
Defined.

(* ================================================================== *)
(** ** More on [search_hn] *)
(* ================================================================== *)

Section SearchFacts.

Variable P : platform.
Variable http_get : string -> Z -> http_outcome.

(** A search performs at most one request, with a timeout of 30 seconds, and
    writes to the error stream only when it returns the error result, one
    line then; this for every argument and every environment. *)
Theorem search_single_request
    (topic from_date to_date depth : string) (mock_response : value) :
  let out := search_hn P http_get topic from_date to_date depth mock_response in
  (List.length (requests (snd out)) <= 1)%nat
  /\ Forall (fun q => snd q = 30) (requests (snd out))
  /\ (stderr_lines (snd out) = []
      \/ exists e line,
           fst out = Ok (error_result e) /\ stderr_lines (snd out) = [line]).
Proof.
  cbv zeta. unfold search_hn.
  destruct mock_response; simpl;
    try (split; [lia|split; [constructor|left; reflexivity]]).
  destruct (search_url P topic from_date to_date depth) as [url|e]; simpl;
    [|split; [lia|split; [constructor|left; reflexivity]]].
  destruct (http_get url 30) as [response|e].
  - simpl. split; [lia|]. split; [repeat constructor|left; reflexivity].
  - destruct (exc_is_HTTPError e); [|destruct (exc_is_Exception e)]; simpl;
      (split; [lia|]); (split; [repeat constructor|]);
      try (right; do 2 eexists; split; reflexivity).
    left; reflexivity.
Qed.

(** A response of the service is returned as it is, after the one request
    and without a word on the error stream. *)
Theorem search_returns_service_response
    (topic from_date to_date depth url : string) (response : value) :
  search_url P topic from_date to_date depth = Ok url ->
  http_get url 30 = HttpReturn response ->
  search_hn P http_get topic from_date to_date depth VNone
  = (Ok response, [HttpGet url 30])
  /\ stderr_lines (snd (search_hn P http_get topic from_date to_date depth VNone))
     = [].
Proof.
  intros Hurl Hget. unfold search_hn. rewrite Hurl, Hget. split; reflexivity.
Qed.

(** An exception of the request that is neither an [HTTPError] nor derived
    from [Exception] is not caught: it reaches the caller, and nothing is
    logged. *)
Theorem search_propagates_base_exception
    (topic from_date to_date depth url : string) (e : foreign_exception) :
  search_url P topic from_date to_date depth = Ok url ->
  http_get url 30 = HttpRaise e ->
  is_failure e = false ->
  search_hn P http_get topic from_date to_date depth VNone
  = (Raise (Foreign e), [HttpGet url 30]).
Proof.
  intros Hurl Hget Hfail. unfold search_hn. rewrite Hurl, Hget.
  unfold is_failure in Hfail. apply orb_false_iff in Hfail.
  destruct Hfail as [-> ->]. reflexivity.
Qed.

(** The result of a failed search is parsed to no item: whatever
    [search_hn] returns after a failure of the request, [parse_hn_response]
    accepts and maps to the empty list. *)
Theorem failed_search_parses_to_nothing
    (topic from_date to_date depth url : string) (e : foreign_exception) :
  search_url P topic from_date to_date depth = Ok url ->
  http_get url 30 = HttpRaise e ->
  is_failure e = true ->
  exists response,
    fst (search_hn P http_get topic from_date to_date depth VNone)
    = Ok (VDict response)
    /\ parse_hn_response P response = Ok [].
Proof.
  intros Hurl Hget Hfail. unfold search_hn. rewrite Hurl, Hget.
  exists [ ("error", VStr (exc_str e)); ("hits", VList []) ].
  unfold is_failure in Hfail.
  destruct (exc_is_HTTPError e); [split; reflexivity|].
  simpl in Hfail. rewrite Hfail. split; reflexivity.
Qed.

End SearchFacts.

Section UrlFacts.

Lemma str_forall_app (p : ascii -> bool) (a b : string) :
  str_forall p (a ++ b) = str_forall p a && str_forall p b.
Proof.
  induction a as [|c a IH]; simpl; [reflexivity|].
  now rewrite IH, andb_assoc.
Qed.

Lemma count_char_app (c : ascii) (a b : string) :
  count_char c (a ++ b) = (count_char c a + count_char c b)%nat.
Proof.
  induction a as [|x a IH]; simpl; [reflexivity|]. rewrite IH. lia.
Qed.

Lemma quote_plus_char_safe (c : ascii) :
  str_forall url_char (quote_plus_char c) = true.
Proof. destruct c as [[] [] [] [] [] [] [] []]; reflexivity. Qed.

(** Quoting leaves only unreserved characters, [%] and [+]: whatever the
    text, no separator of the query string survives in it. *)
Theorem quote_plus_safe (s : string) :
  str_forall url_char (quote_plus s) = true.
Proof.
  induction s as [|c s IH]; [reflexivity|].
  cbn [quote_plus]. now rewrite str_forall_app, quote_plus_char_safe.
Qed.

Lemma url_char_count (c : ascii) (s : string) :
  url_char c = false -> str_forall url_char s = true -> count_char c s = O.
Proof.
  intros Hc. induction s as [|x s IH]; [reflexivity|].
  cbn [str_forall count_char]. intros H. apply andb_prop in H.
  destruct H as [Hx Hs]. rewrite (IH Hs).
  destruct (Ascii.eqb_spec c x) as [->|]; [congruence|reflexivity].
Qed.

Lemma str_of_Z_safe (n : Z) : str_forall url_char (str_of_Z n) = true.
Proof. rewrite <- quote_plus_str_of_Z. apply quote_plus_safe. Qed.

(** The query string of a search has its four parameters and no more,
    whatever the topic holds: three [&], four [=], and no space, [#] or
    [?]. *)
Theorem search_query_has_four_parameters
    (topic : string) (from_ts to_ts max_results : Z) :
  let query := urlencode (search_params topic from_ts to_ts max_results) in
  count_char "&" query = 3%nat
  /\ count_char "=" query = 4%nat
  /\ count_char " " query = O
  /\ count_char "#" query = O
  /\ count_char "?" query = O.
Proof.
  unfold urlencode, search_params.
  cbn [map fst snd String.concat py_str py_repr].
  rewrite !quote_plus_app, !quote_plus_str_of_Z.
  change (quote_plus "query") with "query".
  change (quote_plus "tags") with "tags".
  change (quote_plus "story") with "story".
  change (quote_plus "numericFilters") with "numericFilters".
  change (quote_plus "hitsPerPage") with "hitsPerPage".
  change (quote_plus "created_at_i>=") with "created_at_i%3E%3D".
  change (quote_plus ",created_at_i<=") with "%2Ccreated_at_i%3C%3D".
  pose proof (quote_plus_safe topic) as Ht.
  pose proof (str_of_Z_safe from_ts) as Hf.
  pose proof (str_of_Z_safe to_ts) as Hto.
  pose proof (str_of_Z_safe max_results) as Hm.
  repeat split; rewrite !count_char_app;
    match goal with
    | |- context [count_char ?c (quote_plus topic)] =>
        rewrite (url_char_count c _ eq_refl Ht), (url_char_count c _ eq_refl Hf),
                (url_char_count c _ eq_refl Hto), (url_char_count c _ eq_refl Hm)
    end;
    reflexivity.
Qed.

End UrlFacts.

(* ================================================================== *)
(** ** More on [parse_hn_response] *)
(* ================================================================== *)

Section ItemFacts.

Variable P : platform.

(** The item of a hit, field by field. *)
Lemma parse_hit_Some_fields (i : nat) (hit : value) (it : item) :
  parse_hit P i hit = Ok (Some it) ->
  date_step P (hit_field hit "created_at_i" VNone) = Ok (date it)
  /\ hn_url it = HN_ITEM_URL ++ py_str (hit_field hit "objectID" (VStr ""))
  /\ url it = py_or (hit_field hit "url" VNone) (VStr (hn_url it))
  /\ author it = py_or (hit_field hit "author" VNone) (VStr "")
  /\ score (engagement it) = hit_field hit "points" VNone
  /\ num_comments (engagement it) = hit_field hit "num_comments" VNone
  /\ relevance it = 7 # 10.
Proof.
  destruct hit as [ |b|n|s|l|d]; try discriminate.
  rewrite parse_hit_dict.
  destruct (excluded (VDict d)); [discriminate|].
  intros H.
  apply bind_Ok_inv in H. destruct H as (r & Hr & H).
  apply bind_Ok_inv in H. destruct H as (v & Hv & H).
  injection H as <-. cbn [hit_field date hn_url url author engagement score
                           num_comments relevance].
  repeat split. exact Hr.
Qed.

Lemma parse_items_Forall2 (response : dict) (hs : list value) (items : list item)
    (R : item -> nat * value -> Prop) :
  has_key "error" response = false ->
  py_iter (hits_of response) = Ok hs ->
  parse_hn_response P response = Ok items ->
  (forall it i hit, parse_hit P i hit = Ok (Some it) -> R it (i, hit)) ->
  Forall2 R items (kept_hits hs).
Proof.
  intros Herr Hit Hret HR.
  eapply Forall2_weaken; [|exact (parse_Ok_inv P response hs items Herr Hit Hret)].
  intros it [i hit] H. now apply HR.
Qed.

(** The discussion link of an item is built from the [objectID] of its hit
    (from nothing when the hit has none), and the link of the item is the
    [url] of the hit when it has one, the discussion link otherwise. *)
Theorem parse_item_links (response : dict) (hs : list value) (items : list item) :
  has_key "error" response = false ->
  py_iter (hits_of response) = Ok hs ->
  parse_hn_response P response = Ok items ->
  Forall2
    (fun it ih =>
       hn_url it
       = "https://news.ycombinator.com/item?id="
         ++ py_str (hit_field (snd ih) "objectID" (VStr ""))
       /\ url it
          = (if truthy (hit_field (snd ih) "url" VNone)
             then hit_field (snd ih) "url" VNone
             else VStr (hn_url it)))
    items (kept_hits hs).
Proof.
  intros Herr Hit Hret. apply (parse_items_Forall2 response hs items); auto.
  intros it i hit H. apply parse_hit_Some_fields in H.
  destruct H as (_ & Hhn & Hurl & _). cbn [snd]. split; [exact Hhn|exact Hurl].
Qed.

(** The counters of an item are those of its hit, [None] when the hit has
    none (no zero is put in their place); the relevance is the constant 0.7;
    the author is the one of the hit, the empty text when the hit has
    none. *)
Theorem parse_item_engagement (response : dict) (hs : list value) (items : list item) :
  has_key "error" response = false ->
  py_iter (hits_of response) = Ok hs ->
  parse_hn_response P response = Ok items ->
  Forall2
    (fun it ih =>
       score (engagement it) = hit_field (snd ih) "points" VNone
       /\ num_comments (engagement it) = hit_field (snd ih) "num_comments" VNone
       /\ relevance it = 7 # 10
       /\ author it
          = (if truthy (hit_field (snd ih) "author" VNone)
             then hit_field (snd ih) "author" VNone
             else VStr ""))
    items (kept_hits hs).
Proof.
  intros Herr Hit Hret. apply (parse_items_Forall2 response hs items); auto.
  intros it i hit H. apply parse_hit_Some_fields in H.
  destruct H as (_ & _ & _ & Ha & Hs & Hn & Hr). cbn [snd]. auto.
Qed.

(** The date of an item: absent when the [created_at_i] of its hit is
    absent, null or zero; for a nonzero integer, the date the platform gives
    for it, and absent when the platform rejects it. *)
Theorem parse_item_dates (response : dict) (hs : list value) (items : list item) :
  has_key "error" response = false ->
  py_iter (hits_of response) = Ok hs ->
  parse_hn_response P response = Ok items ->
  Forall2
    (fun it ih =>
       let c := hit_field (snd ih) "created_at_i" VNone in
       (truthy c = false -> date it = None)
       /\ (forall n, c = VInt n -> n <> 0 ->
           date it = match local_date_of_timestamp P n with
                     | inl s => Some s
                     | inr _ => None
                     end))
    items (kept_hits hs).
Proof.
  intros Herr Hit Hret. apply (parse_items_Forall2 response hs items); auto.
  intros it i hit H. apply parse_hit_Some_fields in H.
  destruct H as (Hd & _). cbn [snd]. cbv zeta. unfold date_step in Hd. split.
  - intros Hc. rewrite Hc in Hd. now injection Hd.
  - intros n Hc Hn. rewrite Hc in Hd. cbn [truthy _timestamp_to_date] in Hd.
    apply Z.eqb_neq in Hn. rewrite Hn in Hd. cbn [negb] in Hd.
    destruct (local_date_of_timestamp P n) as [s|[]]; cbn in Hd;
      try discriminate; now injection Hd.
Qed.

(** No item has an empty title. *)
Theorem parse_titles_not_empty (response : dict) (hs : list value) (items : list item) :
  has_key "error" response = false ->
  py_iter (hits_of response) = Ok hs ->
  parse_hn_response P response = Ok items ->
  Forall (fun it => truthy (title it) = true) items.
Proof.
  intros Herr Hit Hret.
  pose proof (parse_Ok_inv P response hs items Herr Hit Hret) as HF.
  clear Hret.
  induction HF as [|it [i hit] items ihs H HF IH]; [constructor|].
  constructor; [|exact IH].
  clear IH. cbn [fst snd] in H.
  apply parse_hit_Some_inv in H. destruct H as (Hk & _ & Ht & _).
  rewrite Ht. destruct hit as [ |b|n|s|l|d]; try discriminate.
  unfold kept, excluded, blank in Hk. unfold resolved_title, py_or.
  destruct (truthy (dict_get d "title" VNone)) eqn:E1; [exact E1|].
  destruct (truthy (dict_get d "story_title" VNone)) eqn:E2; [exact E2|].
  discriminate.
Qed.

Lemma map_fst_enumerate_from {A : Type} (l : list A) :
  forall i, map fst (enumerate_from i l) = seq i (List.length l).
Proof.
  induction l as [|a l IH]; intros i; simpl; [reflexivity|]. now rewrite IH.
Qed.

Lemma NoDup_map_filter {A B : Type} (f : A -> B) (g : A -> bool) (l : list A) :
  NoDup (map f l) -> NoDup (map f (filter g l)).
Proof.
  induction l as [|a l IH]; simpl; intros H; [constructor|].
  inversion H as [|x xs Hnin Hnd]; subst.
  destruct (g a); simpl; [|now apply IH].
  constructor; [|now apply IH].
  intros Hin. apply Hnin. apply in_map_iff in Hin.
  destruct Hin as (b & Hb & Hin). apply filter_In in Hin.
  apply in_map_iff. exists b. tauto.
Qed.

Lemma NoDup_map_inj {A B : Type} (f : A -> B) (l : list A) :
  (forall a b, f a = f b -> a = b) -> NoDup l -> NoDup (map f l).
Proof.
  intros Hinj. induction 1 as [|a l Hnin Hnd IH]; simpl; constructor; [|exact IH].
  intros Hin. apply in_map_iff in Hin. destruct Hin as (b & Hb & Hin).
  apply Hinj in Hb. subst b. contradiction.
Qed.

(** The ids of the items of one call are pairwise distinct. *)
Theorem parse_ids_distinct (response : dict) (hs : list value) (items : list item) :
  has_key "error" response = false ->
  py_iter (hits_of response) = Ok hs ->
  parse_hn_response P response = Ok items ->
  NoDup (map id items).
Proof.
  intros Herr Hit Hret.
  pose proof (parse_Ok_inv P response hs items Herr Hit Hret) as HF.
  assert (Hids : map id items = map tag (map fst (kept_hits hs))).
  { rewrite map_map. apply Forall2_map_eq. eapply Forall2_weaken; [|exact HF].
    intros it ih H. now apply parse_hit_Some_inv in H. }
  rewrite Hids. apply NoDup_map_inj.
  - intros a b H. unfold tag in H. injection H as H.
    apply str_of_nat_inj in H. lia.
  - unfold kept_hits, enumerate. apply NoDup_map_filter.
    rewrite map_fst_enumerate_from. apply seq_NoDup.
Qed.

Lemma enumerate_from_app {A : Type} (l1 l2 : list A) :
  forall i,
    enumerate_from i (l1 ++ l2)
    = (enumerate_from i l1 ++ enumerate_from (i + List.length l1) l2)%list.
Proof.
  induction l1 as [|a l1 IH]; intros i; simpl.
  - now rewrite Nat.add_0_r.
  - rewrite IH. do 3 f_equal. lia.
Qed.

Lemma parse_loop_app (hits1 hits2 : list (nat * value)) :
  forall acc,
    parse_loop P (hits1 ++ hits2) acc
    = (items <- parse_loop P hits1 acc ;; parse_loop P hits2 items).
Proof.
  induction hits1 as [|[i hit] hits1 IH]; intros acc; [reflexivity|].
  cbn [app parse_loop].
  destruct (parse_hit P i hit) as [[it|]|e]; cbn [bind]; [apply IH|apply IH|].
  reflexivity.
Qed.

(** More hits at the end of a response leave the items of the hits before
    them as they were, ids included: the items of the longer response start
    with those of the shorter one. *)
Theorem parse_extends_with_hits (hs more : list value) (items : list item) :
  parse_hn_response P (response_of_hits (hs ++ more)) = Ok items ->
  exists first rest,
    parse_hn_response P (response_of_hits hs) = Ok first
    /\ items = (first ++ rest)%list.
Proof.
  unfold parse_hn_response, response_of_hits.
  cbn [has_key lookup String.eqb Ascii.eqb Bool.eqb dict_get py_iter bind].
  unfold enumerate. rewrite enumerate_from_app, parse_loop_app.
  intros H. apply bind_Ok_inv in H. destruct H as (first & Hfirst & H).
  apply parse_loop_Ok_inv in H. destruct H as (rest & -> & _).
  exists first, rest. split; [exact Hfirst|reflexivity].
Qed.

(** A response without hits, because the key is missing or the list is
    empty, has no items. *)
Theorem parse_without_hits_is_empty (response : dict) :
  has_key "error" response = false ->
  lookup "hits" response = None \/ lookup "hits" response = Some (VList []) ->
  parse_hn_response P response = Ok [].
Proof.
  intros Herr H. unfold parse_hn_response, dict_get. rewrite Herr.
  destruct H as [-> | ->]; reflexivity.
Qed.

(** A response whose [hits] is null or a number cannot be iterated:
    [TypeError]; and an element of [hits] that is not an object has no
    [get]: [AttributeError], once the hits before it have been processed. *)
Theorem parse_raises_on_malformed_hits (response : dict) :
  has_key "error" response = false ->
  (iterable (hits_of response) = false ->
   parse_hn_response P response = Raise TypeError)
  /\ (forall pre hit post,
        py_iter (hits_of response) = Ok (pre ++ hit :: post)%list ->
        forallb (processable P) pre = true ->
        is_object hit = false ->
        parse_hn_response P response = Raise AttributeError).
Proof.
  intros Herr. unfold parse_hn_response. rewrite Herr. fold (hits_of response).
  split.
  - destruct (hits_of response); try reflexivity; discriminate.
  - intros pre hit post -> Hpre Hobj. cbn [bind]. unfold enumerate.
    apply parse_loop_raises; [exact Hpre|].
    intros j. apply parse_hit_not_dict. intros d ->. discriminate.
Qed.

(** A hit with a [title] that is present and null beside a [story_title] is
    kept, and the caption step slices the null: [TypeError], once the hits
    before it have been processed and its timestamp is tolerated. *)
Theorem parse_raises_on_null_title
    (response : dict) (pre post : list value) (d : dict) :
  has_key "error" response = false ->
  hits_of response = VList (pre ++ VDict d :: post)%list ->
  forallb (processable P) pre = true ->
  lookup "title" d = Some VNone ->
  truthy (dict_get d "story_title" VNone) = true ->
  timestamp_tolerated P (dict_get d "created_at_i" VNone) = true ->
  parse_hn_response P response = Raise TypeError.
Proof.
  intros Herr Hhits Hpre Ht Hst Hts. unfold parse_hn_response. rewrite Herr.
  fold (hits_of response). rewrite Hhits. cbn [py_iter bind]. unfold enumerate.
  apply parse_loop_raises; [exact Hpre|].
  intros j. rewrite parse_hit_dict.
  unfold excluded, blank, dict_get at 1 2. rewrite Ht. cbn [truthy negb andb].
  unfold dict_get in Hst. rewrite Hst. cbn [negb].
  destruct (date_step_tolerated P _ Hts) as [r ->]. cbn [bind].
  unfold dict_get. rewrite Ht. reflexivity.
Qed.

End ItemFacts.

(* ================================================================== *)
(** ** More on [_date_to_timestamp] *)
(* ================================================================== *)

Section PaddedDates.

Variable P : platform.

Lemma re_Y_digits (y1 y2 y3 y4 : ascii) (rest : string) :
  is_digit y1 && is_digit y2 && is_digit y3 && is_digit y4 = true ->
  re_Y (String y1 (String y2 (String y3 (String y4 rest))))
  = [ (String y1 (String y2 (String y3 (String y4 ""))), rest) ].
Proof.
  intros H.
  apply andb_prop in H. destruct H as [H H4].
  apply andb_prop in H. destruct H as [H H3].
  apply andb_prop in H. destruct H as [H1 H2].
  unfold is_digit in *. unfold re_Y, cat, digit, cls.
  rewrite H1. cbn [flat_map map app fst snd append].
  rewrite H2. cbn [flat_map map app fst snd append].
  rewrite H3. cbn [flat_map map app fst snd append].
  rewrite H4. reflexivity.
Qed.

Lemma match_ymd_padded (y1 y2 y3 y4 : ascii) (m d : Z) :
  is_digit y1 && is_digit y2 && is_digit y3 && is_digit y4 = true ->
  1 <= m <= 12 -> 1 <= d <= 31 ->
  match_ymd (padded_date y1 y2 y3 y4 m d)
  = Some (String y1 (String y2 (String y3 (String y4 ""))),
          two_digits m, two_digits d, "")
  /\ int_of_digits (two_digits m) = m
  /\ int_of_digits (two_digits d) = d.
Proof.
  intros Hy Hm Hd. unfold match_ymd, padded_date.
  rewrite (re_Y_digits _ _ _ _ _ Hy). cbn [flat_map fst snd app].
  destruct m as [|pm|pm]; try lia.
  destruct d as [|pd|pd]; try lia.
  do 4 (try destruct pm as [pm|pm|]; try lia);
    do 5 (try destruct pd as [pd|pd|]; try lia);
    vm_compute; repeat split.
Qed.

(** A date written with four digits for the year and two for the month and
    for the day is read as exactly that year, month and day: when these are
    a date of the calendar the result is that of the platform's conversion
    of the date at local midnight, a timestamp or the exception the
    platform raises for a date it cannot convert; when they are not, the
    date is rejected with [ValueError]. *)
Theorem date_to_timestamp_of_padded_date (y1 y2 y3 y4 : ascii) (m d : Z) :
  is_digit y1 && is_digit y2 && is_digit y3 && is_digit y4 = true ->
  1 <= m <= 12 -> 1 <= d <= 31 ->
  _date_to_timestamp P (padded_date y1 y2 y3 y4 m d)
  = if valid_date (year_of y1 y2 y3 y4) m d
    then lift_time (timestamp_of_local_date P (year_of y1 y2 y3 y4) m d)
    else Raise ValueError.
Proof.
  intros Hy Hm Hd.
  destruct (match_ymd_padded y1 y2 y3 y4 m d Hy Hm Hd) as (Hmatch & Him & Hid).
  unfold _date_to_timestamp, strptime_ymd. rewrite Hmatch.
  cbn [String.eqb negb]. rewrite Him, Hid. fold (year_of y1 y2 y3 y4).
  destruct (valid_date (year_of y1 y2 y3 y4) m d); reflexivity.
Qed.

End PaddedDates.

(* ================================================================== *)
(** ** More on the spinner *)
(* ================================================================== *)

Section SpinnerFacts.

Import UI.

Lemma run_app (tty : bool) (cs cs' : list call) :
  forall self,
    run tty self (cs ++ cs')
    = (fst (run tty (fst (run tty self cs)) cs'),
       (snd (run tty self cs) ++ snd (run tty (fst (run tty self cs)) cs'))%list).
Proof.
  induction cs as [|c cs IH]; intros self.
  - cbn [app run fst snd]. now destruct (run tty self cs').
  - cbn [app]. rewrite !run_cons, IH. cbn [fst snd]. now rewrite app_assoc.
Qed.

Lemma run_static_shown (cs : list call) :
  forall self,
    shown_static self = true ->
    written (snd (run false self cs)) = completion_lines cs.
Proof.
  induction cs as [|c cs IH]; intros self H; [reflexivity|].
  rewrite run_cons. cbn [snd fst]. rewrite written_app.
  rewrite IH by (destruct c; cbn; [unfold start; rewrite H| |]; reflexivity || exact H).
  destruct c as [|m|m]; cbn [perform completion_lines flat_map].
  - unfold start. rewrite H. reflexivity.
  - unfold update. cbn [snd]. rewrite H. reflexivity.
  - unfold stop. cbn [snd]. rewrite !written_app.
    destruct (thread self); destruct (m =? "")%string; reflexivity.
Qed.

(** In non-interactive mode, once [start()] has been called the spinner
    writes nothing but the completion lines of [stop]: whatever calls
    follow, no message of [start] or [update] is printed again. *)
Theorem spinner_after_start_writes_completions (self : Spinner) (cs : list call) :
  written (snd (run false (fst (start false self)) cs)) = completion_lines cs.
Proof.
  apply run_static_shown. unfold start. destruct (shown_static self); reflexivity.
Qed.

(** In non-interactive mode a spinner never starts a thread, and one that
    has none never joins one. *)
Theorem spinner_without_terminal_has_no_thread (self : Spinner) (cs : list call) :
  thread self = None ->
  thread (fst (run false self cs)) = None
  /\ thread_starts (snd (run false self cs)) = O
  /\ thread_joins (snd (run false self cs)) = O.
Proof.
  revert self. induction cs as [|c cs IH]; intros self H; [now repeat split|].
  rewrite run_cons. cbn [fst snd].
  assert (Hc : thread (fst (perform false self c)) = None
               /\ thread_starts (snd (perform false self c)) = O
               /\ thread_joins (snd (perform false self c)) = O).
  { destruct c as [|m|m]; cbn [perform].
    - unfold start. destruct (shown_static self); cbn; auto.
    - unfold update. destruct (shown_static self); cbn; auto.
    - unfold stop. rewrite H. destruct (m =? "")%string; cbn; auto. }
  destruct Hc as (Ht & Hs & Hj). destruct (IH _ Ht) as (Ht' & Hs' & Hj').
  split; [exact Ht'|]. unfold thread_starts, thread_joins in *.
  rewrite !filter_app, !length_app. lia.
Qed.

Lemma last_cons {A : Type} (l : list A) :
  forall a d, last (a :: l) d = last l a.
Proof.
  induction l as [|b l IH]; intros a d; [reflexivity|].
  change (last (a :: b :: l) d) with (last (b :: l) d).
  now rewrite !IH.
Qed.

Lemma run_updates_tty (ms : list string) :
  forall self,
    run true self (map Update ms)
    = ({| message := last ms (message self);
          color := color self;
          running := running self;
          thread := thread self;
          frame_idx := frame_idx self;
          shown_static := shown_static self |}, []).
Proof.
  induction ms as [|m ms IH]; intros self; [now destruct self|].
  cbn [map]. rewrite run_cons, IH. cbn [perform update fst snd andb negb app].
  f_equal. f_equal. cbn [message]. symmetry. apply last_cons.
Qed.

(** On a terminal, a new spinner that is started, updated any number of
    times and stopped starts one thread, writes nothing for the updates
    (the thread shows the message), joins the thread for at most 200 ms,
    erases the line, and prints the completion line when there is one. *)
Theorem spinner_on_terminal_life
    (message0 color0 final_message : string) (ms : list string) :
  run true (__init__ message0 color0)
      (Start :: map Update ms ++ [Stop final_message])%list
  = ({| message := last ms message0;
        color := color0;
        running := false;
        thread := Some SpinThread;
        frame_idx := 0;
        shown_static := false |},
     [ ThreadStart; ThreadJoin 200; Write (CR ++ repeat_string 80 " " ++ CR) ]
     ++ (if (final_message =? "")%string then []
         else [ Write ("✓ " ++ final_message ++ LF) ])
     ++ [ Flush ])%list.
Proof.
  rewrite run_cons. cbn [perform start __init__ fst snd].
  rewrite run_app, run_updates_tty. cbn [fst snd run perform stop].
  cbn [message color running thread frame_idx shown_static app negb].
  destruct (final_message =? "")%string; reflexivity.
Qed.

Lemma spinner_frame_in (k : nat) : In (spinner_frame k) SPINNER_FRAMES.
Proof.
  unfold spinner_frame. apply nth_In.
  change (List.length SPINNER_FRAMES) with 10%nat.
  apply Nat.mod_upper_bound. discriminate.
Qed.

Lemma spin_running (n : nat) :
  forall self,
    running self = true ->
    _spin n self
    = ({| message := message self;
          color := color self;
          running := true;
          thread := thread self;
          frame_idx := frame_idx self + n;
          shown_static := shown_static self |},
       flat_map (fun k => [ Write (spinner_line self (frame_idx self + k));
                            Flush; Sleep 80 ])
                (seq 0 n)).
Proof.
  induction n as [|n IH]; intros self H.
  - cbn [_spin seq flat_map]. rewrite Nat.add_0_r. destruct self. cbn in *.
    now subst.
  - cbn [_spin]. rewrite H. unfold _spin_turn.
    rewrite IH by exact H.
    cbn [message color running thread frame_idx shown_static].
    f_equal.
    + f_equal. lia.
    + cbn [seq flat_map]. rewrite Nat.add_0_r.
      change (List.length SPINNER_FRAMES) with 10%nat.
      change (nth (frame_idx self mod 10) SPINNER_FRAMES "")
        with (spinner_frame (frame_idx self)).
      unfold spinner_line at 2. cbn [app]. do 3 f_equal.
      rewrite <- seq_shift. clear IH.
      induction (seq 0 n) as [|k l IHl]; [reflexivity|].
      cbn [map flat_map]. rewrite IHl. unfold spinner_line.
      cbn [message color].
      replace (frame_idx self + 1 + k)%nat with (frame_idx self + S k)%nat by lia.
      reflexivity.
Qed.

(** The animation: while the spinner runs, the [k]-th turn of the loop
    writes the frame of index [frame_idx + k] modulo 10, always one of the
    ten frames (the index stays in range), and the frames repeat every ten
    turns; the loop changes nothing of the spinner but [frame_idx]; and it
    writes nothing once [running] is cleared. *)
Theorem spin_cycles_through_frames (n : nat) (self : Spinner) :
  (running self = true ->
   written (snd (_spin n self))
   = map (fun k => spinner_line self (frame_idx self + k)) (seq 0 n)
   /\ frame_idx (fst (_spin n self)) = (frame_idx self + n)%nat
   /\ message (fst (_spin n self)) = message self
   /\ running (fst (_spin n self)) = true
   /\ color (fst (_spin n self)) = color self
   /\ thread (fst (_spin n self)) = thread self
   /\ shown_static (fst (_spin n self)) = shown_static self)
  /\ (running self = false -> _spin n self = (self, []))
  /\ (forall k, In (spinner_frame k) SPINNER_FRAMES
                /\ spinner_frame (k + 10) = spinner_frame k).
Proof.
  split; [|split].
  - intros H. rewrite (spin_running n self H).
    cbn [fst snd message frame_idx running color thread shown_static].
    repeat split.
    induction (seq 0 n) as [|k l IH]; [reflexivity|].
    cbn [map flat_map]. rewrite written_app, IH. reflexivity.
  - intros H. destruct n; cbn [_spin]; [reflexivity|]. now rewrite H.
  - intros k. split; [apply spinner_frame_in|].
    unfold spinner_frame. f_equal.
    rewrite <- (Nat.mul_1_l 10) at 1. now rewrite Nat.Div0.mod_add.
Qed.

End SpinnerFacts.

(* ================================================================== *)
(** ** Properties of the progress display *)
(* ================================================================== *)

Section DisplayFacts.

Import UI.

Lemma display_run_cons (tty : bool) (self : ProgressDisplay)
    (c : display_call) (cs : list display_call) :
  display_run tty self (c :: cs)
  = (fst (display_run tty (fst (display_perform tty self c)) cs),
     (snd (display_perform tty self c)
      ++ snd (display_run tty (fst (display_perform tty self c)) cs))%list).
Proof.
  cbn [display_run]. destruct (display_perform tty self c) as [self' out].
  cbn [fst snd]. destruct (display_run tty self' cs) as [self'' out'].
  reflexivity.
Qed.

Lemma display_run_app (tty : bool) (cs cs' : list display_call) :
  forall self,
    display_run tty self (cs ++ cs')
    = (fst (display_run tty (fst (display_run tty self cs)) cs'),
       (snd (display_run tty self cs)
        ++ snd (display_run tty (fst (display_run tty self cs)) cs'))%list).
Proof.
  induction cs as [|c cs IH]; intros self.
  - cbn [app display_run fst snd]. now destruct (display_run tty self cs').
  - cbn [app]. rewrite !display_run_cons, IH. cbn [fst snd].
    now rewrite app_assoc.
Qed.

(** The calls that end or update a phase do nothing on a display that has
    not started one: no output, and the display is left as it was. *)
Theorem display_idle_ends_do_nothing
    (tty : bool) (self : ProgressDisplay) (cs : list display_call) :
  spinner self = None ->
  forallb is_end_or_update cs = true ->
  display_run tty self cs = (self, []).
Proof.
  intros Hsp. induction cs as [|c cs IH]; [reflexivity|].
  cbn [forallb]. intros H. apply andb_prop in H. destruct H as [Hc Hcs].
  rewrite display_run_cons.
  assert (Hp : display_perform tty self c = (self, [])).
  { destruct c; try discriminate; cbn [display_perform];
      unfold end_reddit, end_reddit_enrich, end_x, end_processing,
             update_reddit_enrich, stop_current;
      now rewrite Hsp. }
  rewrite Hp. cbn [fst snd]. now rewrite (IH Hcs).
Qed.

(** The updates of the enrichment phase on a display whose spinner has
    shown its static line. *)
Lemma display_updates_silent (us : list (nat * Z * Z)) :
  forall self sp,
    spinner self = Some sp ->
    shown_static sp = true ->
    exists sp',
      spinner (fst (display_run false self
                      (map (fun u => UpdateRedditEnrich (fst (fst u)) (snd (fst u)) (snd u)) us)))
      = Some sp'
      /\ shown_static sp' = true
      /\ thread sp' = thread sp
      /\ written (snd (display_run false self
                         (map (fun u => UpdateRedditEnrich (fst (fst u)) (snd (fst u)) (snd u)) us)))
         = [].
Proof.
  induction us as [|u us IH]; intros self sp Hsp Hst.
  - exists sp. cbn. auto.
  - cbn [map]. rewrite display_run_cons. cbn [fst snd display_perform].
    unfold update_reddit_enrich. rewrite Hsp. cbn [update fst snd].
    rewrite Hst. cbn [negb andb app].
    match goal with
    | |- context [display_run false (set_spinner self ?x) _] =>
        destruct (IH (set_spinner self x) x eq_refl eq_refl)
          as (sp' & H1 & H2 & H3 & H4)
    end.
    exists sp'. repeat split; assumption.
Qed.

Lemma stop_current_silent (self : ProgressDisplay) :
  written (snd (stop_current false self "")) = [].
Proof.
  unfold stop_current. destruct (spinner self) as [sp|]; [|reflexivity].
  cbn. unfold written. rewrite !flat_map_app. destruct (thread sp); reflexivity.
Qed.

Lemma start_reddit_enrich_static (r : nat) (c t : Z) (self : ProgressDisplay) :
  (exists sp,
     spinner (fst (start_reddit_enrich false r c t self)) = Some sp
     /\ shown_static sp = true /\ thread sp = None)
  /\ written (snd (start_reddit_enrich false r c t self))
     = [ "⏳ " ++ enrich_message c t (choice r ENRICHING_MESSAGES) ++ LF ].
Proof.
  unfold start_reddit_enrich.
  pose proof (stop_current_silent self) as Hs.
  destruct (stop_current false self "") as [self' out]. cbn [snd] in Hs.
  cbn [start_with start __init__ shown_static negb fst snd].
  rewrite written_app, Hs. split; [|reflexivity].
  eexists. cbn [set_spinner spinner]. split; [reflexivity|]. split; reflexivity.
Qed.

Lemma phase_log (p : phase) (self : ProgressDisplay) :
  written (snd (display_run false self (phase_calls p))) = phase_lines p.
Proof.
  destruct p as [r n|r c t us|r n|r]; cbn [phase_calls phase_lines].
  - cbn. reflexivity.
  - rewrite display_run_cons, display_run_app. cbn [fst snd display_perform].
    rewrite !written_app.
    destruct (start_reddit_enrich_static r c t self) as ((sp & Hsp & Hst & Hth) & Hw1).
    destruct (display_updates_silent us _ sp Hsp Hst) as (sp' & Hsp' & Hst' & Hth' & Hw).
    rewrite Hw1, Hw.
    cbn [display_run display_perform]. unfold end_reddit_enrich, stop_current.
    rewrite Hsp'. cbn [stop fst snd]. rewrite Hth', Hth. cbn. reflexivity.
  - cbn. reflexivity.
  - cbn. reflexivity.
Qed.

Lemma choice_in (r : nat) (pool : list string) :
  pool <> [] -> In (choice r pool) pool.
Proof.
  intros H. unfold choice. apply nth_In. apply Nat.mod_upper_bound.
  destruct pool; [contradiction|discriminate].
Qed.

(** The non-interactive log of a run of the pipeline: each phase, started
    and ended in turn, leaves the line of its start, with one of the
    messages of its pool, and the line of its completion (none for the
    processing phase); the updates of the enrichment phase leave nothing. *)
Theorem display_log_without_terminal
    (self : ProgressDisplay) (ps : list phase) :
  written (snd (display_run false self (flat_map phase_calls ps)))
  = flat_map phase_lines ps
  /\ (forall r,
        In (choice r REDDIT_MESSAGES) REDDIT_MESSAGES
        /\ In (choice r ENRICHING_MESSAGES) ENRICHING_MESSAGES
        /\ In (choice r X_MESSAGES) X_MESSAGES
        /\ In (choice r PROCESSING_MESSAGES) PROCESSING_MESSAGES).
Proof.
  split.
  - revert self. induction ps as [|p ps IH]; intros self; [reflexivity|].
    cbn [flat_map]. rewrite display_run_app. cbn [snd].
    now rewrite written_app, phase_log, IH.
  - intros r. repeat split; apply choice_in; discriminate.
Qed.

Lemma thread_starts_app (out out' : list event) :
  thread_starts (out ++ out') = (thread_starts out + thread_starts out')%nat.
Proof. unfold thread_starts. now rewrite filter_app, length_app. Qed.

Lemma thread_joins_app (out out' : list event) :
  thread_joins (out ++ out') = (thread_joins out + thread_joins out')%nat.
Proof. unfold thread_joins. now rewrite filter_app, length_app. Qed.

Lemma display_updates_tty (us : list (nat * Z * Z)) :
  forall self sp,
    spinner self = Some sp ->
    exists sp',
      spinner (fst (display_run true self
                      (map (fun u => UpdateRedditEnrich (fst (fst u)) (snd (fst u)) (snd u)) us)))
      = Some sp'
      /\ thread sp' = thread sp
      /\ snd (display_run true self
                (map (fun u => UpdateRedditEnrich (fst (fst u)) (snd (fst u)) (snd u)) us))
         = [].
Proof.
  induction us as [|u us IH]; intros self sp Hsp.
  - exists sp. cbn. auto.
  - cbn [map]. rewrite display_run_cons. cbn [fst snd display_perform].
    unfold update_reddit_enrich. rewrite Hsp. cbn [update fst snd negb andb app].
    match goal with
    | |- context [display_run true (set_spinner self ?x) _] =>
        destruct (IH (set_spinner self x) x eq_refl) as (sp' & H1 & H2 & H3)
    end.
    exists sp'. repeat split; assumption.
Qed.

Lemma stop_current_tty (self : ProgressDisplay) (final : string) :
  thread_starts (snd (stop_current true self final)) = O
  /\ forall alive rest,
       threads_joined alive (snd (stop_current true self final) ++ rest)
       = threads_joined (match spinner self with
                         | Some sp => match thread sp with
                                      | Some _ => false
                                      | None => alive
                                      end
                         | None => alive
                         end) rest.
Proof.
  unfold stop_current. destruct (spinner self) as [sp|]; [|now split].
  cbn [stop fst snd]. destruct (thread sp); destruct (negb (final =? ""))%string;
    split; reflexivity.
Qed.

Lemma start_with_tty (self : ProgressDisplay) (m c : string) :
  exists sp,
    start_with true self m c = (set_spinner self sp, [ThreadStart])
    /\ thread sp = Some SpinThread.
Proof. eexists. unfold start_with. cbn. split; reflexivity. Qed.

Lemma phase_threads (p : phase) (self : ProgressDisplay) :
  thread_starts (snd (display_run true self (phase_calls p))) = 1%nat
  /\ forall rest,
       threads_joined false (snd (display_run true self (phase_calls p)) ++ rest)
       = threads_joined false rest.
Proof.
  destruct p as [r n|r c t us|r n|r]; cbn [phase_calls].
  - cbn. split; reflexivity.
  - rewrite display_run_cons, display_run_app. cbn [fst snd display_perform].
    unfold start_reddit_enrich.
    destruct (stop_current_tty self "") as (Hs0 & Hj0).
    destruct (stop_current true self "") as [self' out]. cbn [snd] in Hs0, Hj0.
    destruct (start_with_tty self'
                (enrich_message c t (choice r ENRICHING_MESSAGES)) Colors.YELLOW)
      as (sp & -> & Hth).
    cbn [fst snd].
    destruct (display_updates_tty us (set_spinner self' sp) sp eq_refl)
      as (sp' & Hsp' & Hth' & Hout).
    rewrite Hout.
    cbn [display_run display_perform]. unfold end_reddit_enrich, stop_current.
    rewrite Hsp'. cbn [stop fst snd]. rewrite Hth', Hth.
    split.
    + rewrite !thread_starts_app, Hs0. reflexivity.
    + intros rest. rewrite <- !app_assoc, Hj0.
      cbn [app threads_joined negb andb].
      destruct (spinner self) as [sp0|]; [destruct (thread sp0)|]; reflexivity.
  - cbn. split; reflexivity.
  - cbn. split; reflexivity.
Qed.

Lemma phase_stops_spinner (p : phase) (self : ProgressDisplay) :
  exists sp,
    spinner (fst (display_run true self (phase_calls p))) = Some sp
    /\ running sp = false.
Proof.
  destruct p as [r n|r c t us|r n|r]; cbn [phase_calls].
  - eexists. cbn. split; reflexivity.
  - rewrite display_run_cons, display_run_app. cbn [fst snd display_perform].
    unfold start_reddit_enrich.
    destruct (stop_current true self "") as [self' out].
    destruct (start_with_tty self'
                (enrich_message c t (choice r ENRICHING_MESSAGES)) Colors.YELLOW)
      as (sp & -> & Hth).
    cbn [fst snd].
    destruct (display_updates_tty us (set_spinner self' sp) sp eq_refl)
      as (sp' & Hsp' & Hth' & Hout).
    cbn [display_run display_perform]. unfold end_reddit_enrich, stop_current.
    rewrite Hsp'. eexists. cbn. split; reflexivity.
  - eexists. cbn. split; reflexivity.
  - eexists. cbn. split; reflexivity.
Qed.

(** On a terminal, a run of the pipeline whose phases are started and
    ended in turn starts one animation thread per phase; each thread is
    joined, with the timeout of 200 ms and no other, before the next is
    started and before the end of the run; and at the end of each phase the
    spinner of the phase is stopped: its [running] flag is cleared. *)
Theorem display_joins_each_thread (self : ProgressDisplay) (ps : list phase) :
  thread_starts (snd (display_run true self (flat_map phase_calls ps)))
  = List.length ps
  /\ threads_joined false (snd (display_run true self (flat_map phase_calls ps)))
     = true
  /\ (forall ps1 p ps2,
        ps = (ps1 ++ p :: ps2)%list ->
        exists sp,
          spinner (fst (display_run true self
                          (flat_map phase_calls (ps1 ++ [p]))))
          = Some sp
          /\ running sp = false).
Proof.
  split; [|split].
  - revert self. induction ps as [|p ps IH]; intros self; [reflexivity|].
    cbn [flat_map List.length]. rewrite display_run_app. cbn [snd].
    rewrite thread_starts_app, (proj1 (phase_threads p self)), IH. reflexivity.
  - revert self. induction ps as [|p ps IH]; intros self; [reflexivity|].
    cbn [flat_map]. rewrite display_run_app. cbn [snd].
    rewrite (proj2 (phase_threads p self)). apply IH.
  - intros ps1 p ps2 _. rewrite flat_map_app. cbn [flat_map].
    rewrite app_nil_r, display_run_app. cbn [fst].
    apply phase_stops_spinner.
Qed.

Lemma display_perform_no_thread (self : ProgressDisplay) (c : display_call) :
  match spinner self with Some sp => thread sp = None | None => True end ->
  match spinner (fst (display_perform false self c)) with
  | Some sp => thread sp = None
  | None => True
  end
  /\ thread_starts (snd (display_perform false self c)) = O
  /\ thread_joins (snd (display_perform false self c)) = O.
Proof.
  intros H.
  destruct c; cbn [display_perform];
    unfold start_reddit, start_x, start_processing, start_reddit_enrich,
           end_reddit, end_reddit_enrich, end_x, end_processing,
           update_reddit_enrich, show_error, stop_current, start_with;
    destruct (spinner self) as [sp|] eqn:Hsp;
    cbn [start stop update __init__ fst snd set_spinner spinner thread
         shown_static negb andb app];
    try rewrite H;
    repeat match goal with
           | |- context [if ?b then _ else _] => destruct b
           end;
    cbn; try rewrite Hsp; auto.
Qed.

(** Without a terminal, a display that starts with no spinner never starts
    nor joins a thread, whatever calls are made on it. *)
Theorem display_without_terminal_has_no_thread
    (self : ProgressDisplay) (cs : list display_call) :
  spinner self = None ->
  thread_starts (snd (display_run false self cs)) = O
  /\ thread_joins (snd (display_run false self cs)) = O.
Proof.
  intros Hsp.
  assert (Hinv : match spinner self with
                 | Some sp => thread sp = None
                 | None => True
                 end) by now rewrite Hsp.
  clear Hsp. revert self Hinv.
  induction cs as [|c cs IH]; intros self Hinv; [split; reflexivity|].
  rewrite display_run_cons. cbn [snd].
  destruct (display_perform_no_thread self c Hinv) as (Hinv' & Hs & Hj).
  destruct (IH _ Hinv') as (Hs' & Hj').
  rewrite thread_starts_app, thread_joins_app. lia.
Qed.

End DisplayFacts.

(* ================================================================== *)
(** ** Instances of the further properties *)
(* ================================================================== *)

Lemma search_returns_service_response_witness :
  (search_url utc "rust" "2024-01-01" "2024-01-31" "quick"
   = Ok (search_request "rust" 1704067200 1706745600 "12")
   /\ http_no_hits (search_request "rust" 1704067200 1706745600 "12") 30
      = HttpReturn (VDict [ ("hits", VList []) ]))
  /\ search_hn utc http_no_hits "rust" "2024-01-01" "2024-01-31" "quick" VNone
     = (Ok (VDict [ ("hits", VList []) ]),
        [ HttpGet (search_request "rust" 1704067200 1706745600 "12") 30 ]).
Proof.
  split; [split; reflexivity|].
  exact (proj1 (search_returns_service_response utc http_no_hits
                  "rust" "2024-01-01" "2024-01-31" "quick"
                  (search_request "rust" 1704067200 1706745600 "12")
                  (VDict [ ("hits", VList []) ]) eq_refl eq_refl)).
Defined.

Lemma search_propagates_base_exception_witness :
  (search_url utc "rust" "2024-01-01" "2024-01-31" "quick"
   = Ok (search_request "rust" 1704067200 1706745600 "12")
   /\ http_interrupted (search_request "rust" 1704067200 1706745600 "12") 30
      = HttpRaise interrupted
   /\ is_failure interrupted = false)
  /\ search_hn utc http_interrupted "rust" "2024-01-01" "2024-01-31" "quick" VNone
     = (Raise (Foreign interrupted),
        [ HttpGet (search_request "rust" 1704067200 1706745600 "12") 30 ]).
Proof.
  split; [repeat split|].
  exact (search_propagates_base_exception utc http_interrupted
           "rust" "2024-01-01" "2024-01-31" "quick"
           (search_request "rust" 1704067200 1706745600 "12")
           interrupted eq_refl eq_refl eq_refl).
Defined.

Lemma failed_search_parses_to_nothing_witness :
  (search_url utc "rust" "2024-01-01" "2024-01-31" "quick"
   = Ok (search_request "rust" 1704067200 1706745600 "12")
   /\ http_timeout (search_request "rust" 1704067200 1706745600 "12") 30
      = HttpRaise timed_out
   /\ is_failure timed_out = true)
  /\ exists response,
       fst (search_hn utc http_timeout "rust" "2024-01-01" "2024-01-31" "quick" VNone)
       = Ok (VDict response)
       /\ parse_hn_response utc response = Ok [].
Proof.
  split; [repeat split|].
  exact (failed_search_parses_to_nothing utc http_timeout
           "rust" "2024-01-01" "2024-01-31" "quick"
           (search_request "rust" 1704067200 1706745600 "12")
           timed_out eq_refl eq_refl eq_refl).
Defined.

Lemma parse_item_links_witness :
  (has_key "error" response_sample = false
   /\ py_iter (hits_of response_sample) = Ok hits_sample
   /\ parse_hn_response utc response_sample = Ok items_sample)
  /\ Forall2
       (fun it ih =>
          hn_url it
          = "https://news.ycombinator.com/item?id="
            ++ py_str (hit_field (snd ih) "objectID" (VStr ""))
          /\ url it
             = (if truthy (hit_field (snd ih) "url" VNone)
                then hit_field (snd ih) "url" VNone
                else VStr (hn_url it)))
       items_sample (kept_hits hits_sample).
Proof.
  split; [repeat split|].
  exact (parse_item_links utc response_sample hits_sample items_sample
           eq_refl eq_refl eq_refl).
Defined.

Lemma parse_item_engagement_witness :
  (has_key "error" response_sample = false
   /\ py_iter (hits_of response_sample) = Ok hits_sample
   /\ parse_hn_response utc response_sample = Ok items_sample)
  /\ Forall2
       (fun it ih =>
          score (engagement it) = hit_field (snd ih) "points" VNone
          /\ num_comments (engagement it) = hit_field (snd ih) "num_comments" VNone
          /\ relevance it = 7 # 10
          /\ author it
             = (if truthy (hit_field (snd ih) "author" VNone)
                then hit_field (snd ih) "author" VNone
                else VStr ""))
       items_sample (kept_hits hits_sample).
Proof.
  split; [repeat split|].
  exact (parse_item_engagement utc response_sample hits_sample items_sample
           eq_refl eq_refl eq_refl).
Defined.

Lemma parse_item_dates_witness :
  (has_key "error" response_sample = false
   /\ py_iter (hits_of response_sample) = Ok hits_sample
   /\ parse_hn_response utc response_sample = Ok items_sample)
  /\ Forall2
       (fun it ih =>
          let c := hit_field (snd ih) "created_at_i" VNone in
          (truthy c = false -> date it = None)
          /\ (forall n, c = VInt n -> n <> 0 ->
              date it = match local_date_of_timestamp utc n with
                        | inl s => Some s
                        | inr _ => None
                        end))
       items_sample (kept_hits hits_sample).
Proof.
  split; [repeat split|].
  exact (parse_item_dates utc response_sample hits_sample items_sample
           eq_refl eq_refl eq_refl).
Defined.

Lemma parse_titles_not_empty_witness :
  (has_key "error" response_sample = false
   /\ py_iter (hits_of response_sample) = Ok hits_sample
   /\ parse_hn_response utc response_sample = Ok items_sample)
  /\ Forall (fun it => truthy (title it) = true) items_sample.
Proof.
  split; [repeat split|].
  exact (parse_titles_not_empty utc response_sample hits_sample items_sample
           eq_refl eq_refl eq_refl).
Defined.

Lemma parse_ids_distinct_witness :
  (has_key "error" response_sample = false
   /\ py_iter (hits_of response_sample) = Ok hits_sample
   /\ parse_hn_response utc response_sample = Ok items_sample)
  /\ NoDup (map id items_sample).
Proof.
  split; [repeat split|].
  exact (parse_ids_distinct utc response_sample hits_sample items_sample
           eq_refl eq_refl eq_refl).
Defined.

Lemma parse_extends_with_hits_witness :
  parse_hn_response utc
    (response_of_hits (firstn 1 hits_sample ++ skipn 1 hits_sample))
  = Ok items_sample
  /\ exists first rest,
       parse_hn_response utc (response_of_hits (firstn 1 hits_sample)) = Ok first
       /\ items_sample = (first ++ rest)%list.
Proof.
  split; [reflexivity|].
  exact (parse_extends_with_hits utc (firstn 1 hits_sample) (skipn 1 hits_sample)
           items_sample eq_refl).
Defined.

Lemma parse_without_hits_is_empty_witness :
  (has_key "error" [ ("nbHits", VInt 0) ] = false
   /\ (lookup "hits" [ ("nbHits", VInt 0) ] = None
       \/ lookup "hits" [ ("nbHits", VInt 0) ] = Some (VList [])))
  /\ parse_hn_response utc [ ("nbHits", VInt 0) ] = Ok [].
Proof.
  split; [split; [reflexivity|left; reflexivity]|].
  exact (parse_without_hits_is_empty utc [ ("nbHits", VInt 0) ]
           eq_refl (or_introl eq_refl)).
Defined.

Lemma parse_raises_on_malformed_hits_witness :
  (has_key "error" [ ("hits", VNone) ] = false
   /\ iterable (hits_of [ ("hits", VNone) ]) = false
   /\ has_key "error" (response_of_hits (hits_sample ++ [VStr "oops"])) = false
   /\ forallb (processable utc) hits_sample = true
   /\ is_object (VStr "oops") = false)
  /\ parse_hn_response utc [ ("hits", VNone) ] = Raise TypeError
  /\ parse_hn_response utc (response_of_hits (hits_sample ++ [VStr "oops"]))
     = Raise AttributeError.
Proof.
  split; [repeat split|]. split.
  - exact (proj1 (parse_raises_on_malformed_hits utc [ ("hits", VNone) ] eq_refl)
             eq_refl).
  - exact (proj2 (parse_raises_on_malformed_hits utc
                    (response_of_hits (hits_sample ++ [VStr "oops"])) eq_refl)
             hits_sample (VStr "oops") [] eq_refl eq_refl eq_refl).
Defined.

Lemma parse_raises_on_null_title_witness :
  (has_key "error" (response_of_hits (hits_sample ++ [VDict hit_null_title])) = false
   /\ hits_of (response_of_hits (hits_sample ++ [VDict hit_null_title]))
      = VList (hits_sample ++ VDict hit_null_title :: [])%list
   /\ forallb (processable utc) hits_sample = true
   /\ lookup "title" hit_null_title = Some VNone
   /\ truthy (dict_get hit_null_title "story_title" VNone) = true
   /\ timestamp_tolerated utc (dict_get hit_null_title "created_at_i" VNone) = true)
  /\ parse_hn_response utc (response_of_hits (hits_sample ++ [VDict hit_null_title]))
     = Raise TypeError.
Proof.
  split; [repeat split|].
  exact (parse_raises_on_null_title utc
           (response_of_hits (hits_sample ++ [VDict hit_null_title]))
           hits_sample [] hit_null_title
           eq_refl eq_refl eq_refl eq_refl eq_refl eq_refl).
Defined.

Lemma date_to_timestamp_of_padded_date_witness :
  (is_digit "2" && is_digit "0" && is_digit "2" && is_digit "4" = true
   /\ 1 <= 1 <= 12 /\ 1 <= 31 <= 31)
  /\ _date_to_timestamp utc "2024-01-31" = Ok 1706659200
  /\ _date_to_timestamp utc "2024-02-30" = Raise ValueError
  /\ _date_to_timestamp utc "0001-01-01" = Raise ValueError.
Proof.
  split; [split; [reflexivity|split; lia]|]. split; [|split; [|reflexivity]].
  - exact (date_to_timestamp_of_padded_date utc "2" "0" "2" "4" 1 31
             eq_refl (conj (Z.le_refl 1) (Zle_bool_imp_le 1 12 eq_refl))
             (conj (Zle_bool_imp_le 1 31 eq_refl) (Z.le_refl 31))).
  - exact (date_to_timestamp_of_padded_date utc "2" "0" "2" "4" 2 30
             eq_refl (conj (Zle_bool_imp_le 1 2 eq_refl) (Zle_bool_imp_le 2 12 eq_refl))
             (conj (Zle_bool_imp_le 1 30 eq_refl) (Zle_bool_imp_le 30 31 eq_refl))).
Defined.

Lemma spinner_without_terminal_has_no_thread_witness :
  UI.thread spinner_sample = None
  /\ UI.thread (fst (UI.run false spinner_sample
                       [UI.Start; UI.Update "Fetching"; UI.Stop "done"])) = None
  /\ thread_starts (snd (UI.run false spinner_sample
                            [UI.Start; UI.Update "Fetching"; UI.Stop "done"])) = O
  /\ thread_joins (snd (UI.run false spinner_sample
                           [UI.Start; UI.Update "Fetching"; UI.Stop "done"])) = O.
Proof.
  split; [reflexivity|].
  exact (spinner_without_terminal_has_no_thread spinner_sample
           [UI.Start; UI.Update "Fetching"; UI.Stop "done"] eq_refl).
Defined.

Lemma spin_cycles_through_frames_witness :
  (UI.running (fst (UI.start true spinner_sample)) = true
   /\ UI.running spinner_sample = false)
  /\ UI.written (snd (UI._spin 12 (fst (UI.start true spinner_sample))))
     = map (fun k => spinner_line (fst (UI.start true spinner_sample)) (0 + k))
           (seq 0 12)
  /\ UI._spin 12 spinner_sample = (spinner_sample, []).
Proof.
  split; [split; reflexivity|].
  destruct (spin_cycles_through_frames 12 (fst (UI.start true spinner_sample)))
    as (Hrun & _ & _).
  destruct (spin_cycles_through_frames 12 spinner_sample) as (_ & Hstop & _).
  split; [exact (proj1 (Hrun eq_refl))|exact (Hstop eq_refl)].
Defined.

Lemma display_idle_ends_do_nothing_witness :
  (UI.spinner display_sample = None
   /\ forallb is_end_or_update
        [UI.EndReddit 3; UI.UpdateRedditEnrich 0 1 3; UI.EndProcessing] = true)
  /\ UI.display_run true display_sample
       [UI.EndReddit 3; UI.UpdateRedditEnrich 0 1 3; UI.EndProcessing]
     = (display_sample, []).
Proof.
  split; [split; reflexivity|].
  exact (display_idle_ends_do_nothing true display_sample
           [UI.EndReddit 3; UI.UpdateRedditEnrich 0 1 3; UI.EndProcessing]
           eq_refl eq_refl).
Defined.

Lemma display_without_terminal_has_no_thread_witness :
  UI.spinner display_sample = None
  /\ thread_starts (snd (UI.display_run false display_sample
                            [UI.StartReddit 2; UI.StartX 5; UI.EndX 4])) = O
  /\ thread_joins (snd (UI.display_run false display_sample
                           [UI.StartReddit 2; UI.StartX 5; UI.EndX 4])) = O.
Proof.
  split; [reflexivity|].
  exact (display_without_terminal_has_no_thread display_sample
           [UI.StartReddit 2; UI.StartX 5; UI.EndX 4] eq_refl).
Defined.
